(** * A sandboxed file-tool server: path validation and tool dispatch

    Shallow embedding of [src/index.ts]: the [PathValidator] class, the six
    tools of [SimpleMCPServer] and the [CallTool] request handler.

    Conventions of the model.
    - A JavaScript string is a [string] (a sequence of bytes; non-ASCII text
      such as the Japanese messages is its UTF-8 encoding).  Prefix tests,
      splitting at [/] and concatenation agree with the UTF-16 view for
      well-formed text.  [toLowerCase] decodes the text, maps every code
      point to its lowercase (the mapping of Unicode 14.0) and encodes the
      result.
    - Node's [path] module is modelled for POSIX hosts, at the level of path
      segments: [path.resolve] and [path.extname] below follow the algorithms
      of Node's [lib/path.js].
    - Values that arrive untyped from the client (the members of
      [request.params.arguments]) are [JsValue]s; a library function that
      needs a string throws a [TypeError] on anything else, as Node does.
    - [async] functions are state-passing functions over a [World] (the file
      system and the trace of effects) that either return or throw.
    - The numbers the program rounds are whole (seconds of uptime, bytes of
      memory) and are integers here.  Dividing by 1024 three times is exact
      in binary floating point, [Math.round] sends a half up and
      [Math.floor] rounds down, so both roundings are integer divisions. *)

From Stdlib Require Import ZArith Lia Ascii String List Bool.
From stdpp Require Import base option list strings pretty gmap.

Local Open Scope string_scope.
Local Open Scope list_scope.

(** ** Unicode text *)

(** Case conversion works on code points.  A string holds the UTF-8
    encoding of its text; the tables are those of Unicode 14.0. *)
Module Unicode.

Local Open Scope Z_scope.

(** One element of a decoded string: a code point, or a byte that belongs
    to no well-formed sequence and is kept as it is. *)
Inductive Item : Type :=
| CodePoint (cp : Z)
| Stray (c : ascii).

Definition byte (c : ascii) : Z := Z.of_N (N_of_ascii c).
Definition char (b : Z) : ascii := ascii_of_N (Z.to_N b).

(** A continuation byte [10xxxxxx] and the six bits it carries. *)
Definition continuation (c : ascii) : bool :=
  (128 <=? byte c) && (byte c <? 192).
Definition payload (c : ascii) : Z := byte c - 128.

Definition surrogate (cp : Z) : bool := (55296 <=? cp) && (cp <? 57344).

Fixpoint decode (s : string) : list Item :=
  match s with
  | EmptyString => []
  | String c0 s0 =>
      let b0 := byte c0 in
      if b0 <? 128 then CodePoint b0 :: decode s0
      else
        match s0 with
        | String c1 s1 =>
            if continuation c1 then
              if (194 <=? b0) && (b0 <? 224)
              then CodePoint ((b0 - 192) * 64 + payload c1) :: decode s1
              else
                match s1 with
                | String c2 s2 =>
                    if continuation c2 then
                      let cp3 := (b0 - 224) * 4096 + payload c1 * 64
                                 + payload c2 in
                      if (224 <=? b0) && (b0 <? 240) && (2048 <=? cp3)
                         && negb (surrogate cp3)
                      then CodePoint cp3 :: decode s2
                      else
                        match s2 with
                        | String c3 s3 =>
                            let cp4 := (b0 - 240) * 262144
                                       + payload c1 * 4096
                                       + payload c2 * 64 + payload c3 in
                            if continuation c3 && (240 <=? b0) && (b0 <? 245)
                               && (65536 <=? cp4) && (cp4 <? 1114112)
                            then CodePoint cp4 :: decode s3
                            else Stray c0 :: decode s0
                        | EmptyString => Stray c0 :: decode s0
                        end
                    else Stray c0 :: decode s0
                | EmptyString => Stray c0 :: decode s0
                end
            else Stray c0 :: decode s0
        | EmptyString => Stray c0 :: decode s0
        end
  end.

(** The encoding of one element, in front of [k]. *)
Definition encode_item (i : Item) (k : string) : string :=
  match i with
  | Stray c => String c k
  | CodePoint cp =>
      if cp <? 128 then String (char cp) k
      else if cp <? 2048 then
        String (char (192 + cp / 64)) (String (char (128 + cp mod 64)) k)
      else if cp <? 65536 then
        String (char (224 + cp / 4096))
          (String (char (128 + (cp / 64) mod 64))
             (String (char (128 + cp mod 64)) k))
      else
        String (char (240 + cp / 262144))
          (String (char (128 + (cp / 4096) mod 64))
             (String (char (128 + (cp / 64) mod 64))
                (String (char (128 + cp mod 64)) k)))
  end.

Definition encode (l : list Item) : string := fold_right encode_item "" l.

(** The simple lowercase mappings of [UnicodeData.txt], as runs
    [(first, last, step, delta)]: every [step]-th code point from [first]
    to [last] maps to itself plus [delta]. *)
Definition lowercaseTable : list (Z * Z * Z * Z) := [
  (65, 90, 1, 32); (192, 214, 1, 32); (216, 222, 1, 32);
  (256, 302, 2, 1); (306, 310, 2, 1); (313, 327, 2, 1);
  (330, 374, 2, 1); (376, 376, 1, (-121)); (377, 381, 2, 1);
  (385, 385, 1, 210); (386, 388, 2, 1); (390, 390, 1, 206);
  (391, 391, 1, 1); (393, 394, 1, 205); (395, 395, 1, 1);
  (398, 398, 1, 79); (399, 399, 1, 202); (400, 400, 1, 203);
  (401, 401, 1, 1); (403, 403, 1, 205); (404, 404, 1, 207);
  (406, 406, 1, 211); (407, 407, 1, 209); (408, 408, 1, 1);
  (412, 412, 1, 211); (413, 413, 1, 213); (415, 415, 1, 214);
  (416, 420, 2, 1); (422, 422, 1, 218); (423, 423, 1, 1);
  (425, 425, 1, 218); (428, 428, 1, 1); (430, 430, 1, 218);
  (431, 431, 1, 1); (433, 434, 1, 217); (435, 437, 2, 1);
  (439, 439, 1, 219); (440, 440, 1, 1); (444, 444, 1, 1);
  (452, 452, 1, 2); (453, 453, 1, 1); (455, 455, 1, 2);
  (456, 456, 1, 1); (458, 458, 1, 2); (459, 475, 2, 1);
  (478, 494, 2, 1); (497, 497, 1, 2); (498, 500, 2, 1);
  (502, 502, 1, (-97)); (503, 503, 1, (-56)); (504, 542, 2, 1);
  (544, 544, 1, (-130)); (546, 562, 2, 1); (570, 570, 1, 10795);
  (571, 571, 1, 1); (573, 573, 1, (-163)); (574, 574, 1, 10792);
  (577, 577, 1, 1); (579, 579, 1, (-195)); (580, 580, 1, 69);
  (581, 581, 1, 71); (582, 590, 2, 1); (880, 882, 2, 1);
  (886, 886, 1, 1); (895, 895, 1, 116); (902, 902, 1, 38);
  (904, 906, 1, 37); (908, 908, 1, 64); (910, 911, 1, 63);
  (913, 929, 1, 32); (931, 939, 1, 32); (975, 975, 1, 8);
  (984, 1006, 2, 1); (1012, 1012, 1, (-60)); (1015, 1015, 1, 1);
  (1017, 1017, 1, (-7)); (1018, 1018, 1, 1); (1021, 1023, 1, (-130));
  (1024, 1039, 1, 80); (1040, 1071, 1, 32); (1120, 1152, 2, 1);
  (1162, 1214, 2, 1); (1216, 1216, 1, 15); (1217, 1229, 2, 1);
  (1232, 1326, 2, 1); (1329, 1366, 1, 48); (4256, 4293, 1, 7264);
  (4295, 4295, 1, 7264); (4301, 4301, 1, 7264); (5024, 5103, 1, 38864);
  (5104, 5109, 1, 8); (7312, 7354, 1, (-3008)); (7357, 7359, 1, (-3008));
  (7680, 7828, 2, 1); (7838, 7838, 1, (-7615)); (7840, 7934, 2, 1);
  (7944, 7951, 1, (-8)); (7960, 7965, 1, (-8)); (7976, 7983, 1, (-8));
  (7992, 7999, 1, (-8)); (8008, 8013, 1, (-8)); (8025, 8031, 2, (-8));
  (8040, 8047, 1, (-8)); (8072, 8079, 1, (-8)); (8088, 8095, 1, (-8));
  (8104, 8111, 1, (-8)); (8120, 8121, 1, (-8)); (8122, 8123, 1, (-74));
  (8124, 8124, 1, (-9)); (8136, 8139, 1, (-86)); (8140, 8140, 1, (-9));
  (8152, 8153, 1, (-8)); (8154, 8155, 1, (-100)); (8168, 8169, 1, (-8));
  (8170, 8171, 1, (-112)); (8172, 8172, 1, (-7)); (8184, 8185, 1, (-128));
  (8186, 8187, 1, (-126)); (8188, 8188, 1, (-9)); (8486, 8486, 1, (-7517));
  (8490, 8490, 1, (-8383)); (8491, 8491, 1, (-8262)); (8498, 8498, 1, 28);
  (8544, 8559, 1, 16); (8579, 8579, 1, 1); (9398, 9423, 1, 26);
  (11264, 11311, 1, 48); (11360, 11360, 1, 1); (11362, 11362, 1, (-10743));
  (11363, 11363, 1, (-3814)); (11364, 11364, 1, (-10727)); (11367, 11371, 2, 1);
  (11373, 11373, 1, (-10780)); (11374, 11374, 1, (-10749)); (11375, 11375, 1, (-10783));
  (11376, 11376, 1, (-10782)); (11378, 11378, 1, 1); (11381, 11381, 1, 1);
  (11390, 11391, 1, (-10815)); (11392, 11490, 2, 1); (11499, 11501, 2, 1);
  (11506, 11506, 1, 1); (42560, 42604, 2, 1); (42624, 42650, 2, 1);
  (42786, 42798, 2, 1); (42802, 42862, 2, 1); (42873, 42875, 2, 1);
  (42877, 42877, 1, (-35332)); (42878, 42886, 2, 1); (42891, 42891, 1, 1);
  (42893, 42893, 1, (-42280)); (42896, 42898, 2, 1); (42902, 42920, 2, 1);
  (42922, 42922, 1, (-42308)); (42923, 42923, 1, (-42319)); (42924, 42924, 1, (-42315));
  (42925, 42925, 1, (-42305)); (42926, 42926, 1, (-42308)); (42928, 42928, 1, (-42258));
  (42929, 42929, 1, (-42282)); (42930, 42930, 1, (-42261)); (42931, 42931, 1, 928);
  (42932, 42946, 2, 1); (42948, 42948, 1, (-48)); (42949, 42949, 1, (-42307));
  (42950, 42950, 1, (-35384)); (42951, 42953, 2, 1); (42960, 42960, 1, 1);
  (42966, 42968, 2, 1); (42997, 42997, 1, 1); (65313, 65338, 1, 32);
  (66560, 66599, 1, 40); (66736, 66771, 1, 40); (66928, 66938, 1, 39);
  (66940, 66954, 1, 39); (66956, 66962, 1, 39); (66964, 66965, 1, 39);
  (68736, 68786, 1, 64); (71840, 71871, 1, 32); (93760, 93791, 1, 32);
  (125184, 125217, 1, 34)
]%Z.

(** The code points with property [Cased] that are not [Case_Ignorable],
    as ranges. *)
Definition casedTable : list (Z * Z) := [
  (65, 90); (97, 122); (170, 170); (181, 181); (186, 186);
  (192, 214); (216, 246); (248, 442); (444, 447); (452, 659);
  (661, 687); (880, 883); (886, 887); (891, 893); (895, 895);
  (902, 902); (904, 906); (908, 908); (910, 929); (931, 1013);
  (1015, 1153); (1162, 1327); (1329, 1366); (1376, 1416); (4256, 4293);
  (4295, 4295); (4301, 4301); (4304, 4346); (4349, 4351); (5024, 5109);
  (5112, 5117); (7296, 7304); (7312, 7354); (7357, 7359); (7424, 7467);
  (7531, 7543); (7545, 7578); (7680, 7957); (7960, 7965); (7968, 8005);
  (8008, 8013); (8016, 8023); (8025, 8025); (8027, 8027); (8029, 8029);
  (8031, 8061); (8064, 8116); (8118, 8124); (8126, 8126); (8130, 8132);
  (8134, 8140); (8144, 8147); (8150, 8155); (8160, 8172); (8178, 8180);
  (8182, 8188); (8450, 8450); (8455, 8455); (8458, 8467); (8469, 8469);
  (8473, 8477); (8484, 8484); (8486, 8486); (8488, 8488); (8490, 8493);
  (8495, 8500); (8505, 8505); (8508, 8511); (8517, 8521); (8526, 8526);
  (8544, 8575); (8579, 8580); (9398, 9449); (11264, 11387); (11390, 11492);
  (11499, 11502); (11506, 11507); (11520, 11557); (11559, 11559); (11565, 11565);
  (42560, 42605); (42624, 42651); (42786, 42863); (42865, 42887); (42891, 42894);
  (42896, 42954); (42960, 42961); (42963, 42963); (42965, 42969); (42997, 42998);
  (43002, 43002); (43824, 43866); (43872, 43880); (43888, 43967); (64256, 64262);
  (64275, 64279); (65313, 65338); (65345, 65370); (66560, 66639); (66736, 66771);
  (66776, 66811); (66928, 66938); (66940, 66954); (66956, 66962); (66964, 66965);
  (66967, 66977); (66979, 66993); (66995, 67001); (67003, 67004); (68736, 68786);
  (68800, 68850); (71840, 71903); (93760, 93823); (119808, 119892); (119894, 119964);
  (119966, 119967); (119970, 119970); (119973, 119974); (119977, 119980); (119982, 119993);
  (119995, 119995); (119997, 120003); (120005, 120069); (120071, 120074); (120077, 120084);
  (120086, 120092); (120094, 120121); (120123, 120126); (120128, 120132); (120134, 120134);
  (120138, 120144); (120146, 120485); (120488, 120512); (120514, 120538); (120540, 120570);
  (120572, 120596); (120598, 120628); (120630, 120654); (120656, 120686); (120688, 120712);
  (120714, 120744); (120746, 120770); (120772, 120779); (122624, 122633); (122635, 122654);
  (125184, 125251); (127280, 127305); (127312, 127337); (127344, 127369)
]%Z.

(** The code points with property [Case_Ignorable], as ranges. *)
Definition caseIgnorableTable : list (Z * Z) := [
  (39, 39); (46, 46); (58, 58); (94, 94); (96, 96);
  (168, 168); (173, 173); (175, 175); (180, 180); (183, 184);
  (688, 879); (884, 885); (890, 890); (900, 901); (903, 903);
  (1155, 1161); (1369, 1369); (1375, 1375); (1425, 1469); (1471, 1471);
  (1473, 1474); (1476, 1477); (1479, 1479); (1524, 1524); (1536, 1541);
  (1552, 1562); (1564, 1564); (1600, 1600); (1611, 1631); (1648, 1648);
  (1750, 1757); (1759, 1768); (1770, 1773); (1807, 1807); (1809, 1809);
  (1840, 1866); (1958, 1968); (2027, 2037); (2042, 2042); (2045, 2045);
  (2070, 2093); (2137, 2139); (2184, 2184); (2192, 2193); (2200, 2207);
  (2249, 2306); (2362, 2362); (2364, 2364); (2369, 2376); (2381, 2381);
  (2385, 2391); (2402, 2403); (2417, 2417); (2433, 2433); (2492, 2492);
  (2497, 2500); (2509, 2509); (2530, 2531); (2558, 2558); (2561, 2562);
  (2620, 2620); (2625, 2626); (2631, 2632); (2635, 2637); (2641, 2641);
  (2672, 2673); (2677, 2677); (2689, 2690); (2748, 2748); (2753, 2757);
  (2759, 2760); (2765, 2765); (2786, 2787); (2810, 2815); (2817, 2817);
  (2876, 2876); (2879, 2879); (2881, 2884); (2893, 2893); (2901, 2902);
  (2914, 2915); (2946, 2946); (3008, 3008); (3021, 3021); (3072, 3072);
  (3076, 3076); (3132, 3132); (3134, 3136); (3142, 3144); (3146, 3149);
  (3157, 3158); (3170, 3171); (3201, 3201); (3260, 3260); (3263, 3263);
  (3270, 3270); (3276, 3277); (3298, 3299); (3328, 3329); (3387, 3388);
  (3393, 3396); (3405, 3405); (3426, 3427); (3457, 3457); (3530, 3530);
  (3538, 3540); (3542, 3542); (3633, 3633); (3636, 3642); (3654, 3662);
  (3761, 3761); (3764, 3772); (3782, 3782); (3784, 3789); (3864, 3865);
  (3893, 3893); (3895, 3895); (3897, 3897); (3953, 3966); (3968, 3972);
  (3974, 3975); (3981, 3991); (3993, 4028); (4038, 4038); (4141, 4144);
  (4146, 4151); (4153, 4154); (4157, 4158); (4184, 4185); (4190, 4192);
  (4209, 4212); (4226, 4226); (4229, 4230); (4237, 4237); (4253, 4253);
  (4348, 4348); (4957, 4959); (5906, 5908); (5938, 5939); (5970, 5971);
  (6002, 6003); (6068, 6069); (6071, 6077); (6086, 6086); (6089, 6099);
  (6103, 6103); (6109, 6109); (6155, 6159); (6211, 6211); (6277, 6278);
  (6313, 6313); (6432, 6434); (6439, 6440); (6450, 6450); (6457, 6459);
  (6679, 6680); (6683, 6683); (6742, 6742); (6744, 6750); (6752, 6752);
  (6754, 6754); (6757, 6764); (6771, 6780); (6783, 6783); (6823, 6823);
  (6832, 6862); (6912, 6915); (6964, 6964); (6966, 6970); (6972, 6972);
  (6978, 6978); (7019, 7027); (7040, 7041); (7074, 7077); (7080, 7081);
  (7083, 7085); (7142, 7142); (7144, 7145); (7149, 7149); (7151, 7153);
  (7212, 7219); (7222, 7223); (7288, 7293); (7376, 7378); (7380, 7392);
  (7394, 7400); (7405, 7405); (7412, 7412); (7416, 7417); (7468, 7530);
  (7544, 7544); (7579, 7679); (8125, 8125); (8127, 8129); (8141, 8143);
  (8157, 8159); (8173, 8175); (8189, 8190); (8203, 8207); (8216, 8217);
  (8228, 8228); (8231, 8231); (8234, 8238); (8288, 8292); (8294, 8303);
  (8305, 8305); (8319, 8319); (8336, 8348); (8400, 8432); (11388, 11389);
  (11503, 11505); (11631, 11631); (11647, 11647); (11744, 11775); (11823, 11823);
  (12293, 12293); (12330, 12333); (12337, 12341); (12347, 12347); (12441, 12446);
  (12540, 12542); (40981, 40981); (42232, 42237); (42508, 42508); (42607, 42610);
  (42612, 42621); (42623, 42623); (42652, 42655); (42736, 42737); (42752, 42785);
  (42864, 42864); (42888, 42890); (42994, 42996); (43000, 43001); (43010, 43010);
  (43014, 43014); (43019, 43019); (43045, 43046); (43052, 43052); (43204, 43205);
  (43232, 43249); (43263, 43263); (43302, 43309); (43335, 43345); (43392, 43394);
  (43443, 43443); (43446, 43449); (43452, 43453); (43471, 43471); (43493, 43494);
  (43561, 43566); (43569, 43570); (43573, 43574); (43587, 43587); (43596, 43596);
  (43632, 43632); (43644, 43644); (43696, 43696); (43698, 43700); (43703, 43704);
  (43710, 43711); (43713, 43713); (43741, 43741); (43756, 43757); (43763, 43764);
  (43766, 43766); (43867, 43871); (43881, 43883); (44005, 44005); (44008, 44008);
  (44013, 44013); (64286, 64286); (64434, 64450); (65024, 65039); (65043, 65043);
  (65056, 65071); (65106, 65106); (65109, 65109); (65279, 65279); (65287, 65287);
  (65294, 65294); (65306, 65306); (65342, 65342); (65344, 65344); (65392, 65392);
  (65438, 65439); (65507, 65507); (65529, 65531); (66045, 66045); (66272, 66272);
  (66422, 66426); (67456, 67461); (67463, 67504); (67506, 67514); (68097, 68099);
  (68101, 68102); (68108, 68111); (68152, 68154); (68159, 68159); (68325, 68326);
  (68900, 68903); (69291, 69292); (69446, 69456); (69506, 69509); (69633, 69633);
  (69688, 69702); (69744, 69744); (69747, 69748); (69759, 69761); (69811, 69814);
  (69817, 69818); (69821, 69821); (69826, 69826); (69837, 69837); (69888, 69890);
  (69927, 69931); (69933, 69940); (70003, 70003); (70016, 70017); (70070, 70078);
  (70089, 70092); (70095, 70095); (70191, 70193); (70196, 70196); (70198, 70199);
  (70206, 70206); (70367, 70367); (70371, 70378); (70400, 70401); (70459, 70460);
  (70464, 70464); (70502, 70508); (70512, 70516); (70712, 70719); (70722, 70724);
  (70726, 70726); (70750, 70750); (70835, 70840); (70842, 70842); (70847, 70848);
  (70850, 70851); (71090, 71093); (71100, 71101); (71103, 71104); (71132, 71133);
  (71219, 71226); (71229, 71229); (71231, 71232); (71339, 71339); (71341, 71341);
  (71344, 71349); (71351, 71351); (71453, 71455); (71458, 71461); (71463, 71467);
  (71727, 71735); (71737, 71738); (71995, 71996); (71998, 71998); (72003, 72003);
  (72148, 72151); (72154, 72155); (72160, 72160); (72193, 72202); (72243, 72248);
  (72251, 72254); (72263, 72263); (72273, 72278); (72281, 72283); (72330, 72342);
  (72344, 72345); (72752, 72758); (72760, 72765); (72767, 72767); (72850, 72871);
  (72874, 72880); (72882, 72883); (72885, 72886); (73009, 73014); (73018, 73018);
  (73020, 73021); (73023, 73029); (73031, 73031); (73104, 73105); (73109, 73109);
  (73111, 73111); (73459, 73460); (78896, 78904); (92912, 92916); (92976, 92982);
  (92992, 92995); (94031, 94031); (94095, 94111); (94176, 94177); (94179, 94180);
  (110576, 110579); (110581, 110587); (110589, 110590); (113821, 113822); (113824, 113827);
  (118528, 118573); (118576, 118598); (119143, 119145); (119155, 119170); (119173, 119179);
  (119210, 119213); (119362, 119364); (121344, 121398); (121403, 121452); (121461, 121461);
  (121476, 121476); (121499, 121503); (121505, 121519); (122880, 122886); (122888, 122904);
  (122907, 122913); (122915, 122916); (122918, 122922); (123184, 123197); (123566, 123566);
  (123628, 123631); (125136, 125142); (125252, 125259); (127995, 127999); (917505, 917505);
  (917536, 917631); (917760, 917999)
]%Z.

(** [Lowercase_Mapping] of a code point that has a simple mapping, or the
    code point itself.  The table is in increasing order. *)
Fixpoint simpleLowercase (table : list (Z * Z * Z * Z)) (cp : Z) : Z :=
  match table with
  | [] => cp
  | (first, last, step, delta) :: table' =>
      if cp <? first then cp
      else if (cp <=? last) && ((cp - first) mod step =? 0) then cp + delta
      else simpleLowercase table' cp
  end.

Definition inTable (table : list (Z * Z)) (cp : Z) : bool :=
  existsb (fun r => (fst r <=? cp) && (cp <=? snd r)) table.

(** The next element after the case-ignorable ones is a cased letter. *)
Fixpoint casedNext (l : list Item) : bool :=
  match l with
  | CodePoint cp :: l' =>
      if inTable caseIgnorableTable cp then casedNext l'
      else inTable casedTable cp
  | _ => false
  end.

(** The [Final_Sigma] condition of [SpecialCasing.txt]: a cased letter
    before (case-ignorable ones skipped), none after.  [before] is in
    reverse order. *)
Definition finalSigma (before after : list Item) : bool :=
  casedNext before && negb (casedNext after).

(** The full lowercase mapping under the root locale: the two entries of
    [SpecialCasing.txt] that apply there (capital sigma, and capital I with
    dot above), and the simple mapping otherwise. *)
Fixpoint lowercase (before l : list Item) : list Item :=
  match l with
  | [] => []
  | Stray c :: l' => Stray c :: lowercase (Stray c :: before) l'
  | CodePoint cp :: l' =>
      let k := lowercase (CodePoint cp :: before) l' in
      if cp =? 931 then
        CodePoint (if finalSigma before l' then 962 else 963) :: k
      else if cp =? 304 then CodePoint 105 :: CodePoint 775 :: k
      else CodePoint (simpleLowercase lowercaseTable cp) :: k
  end.

End Unicode.

(** ** Strings as JavaScript uses them *)

Module Js.

(** The double quote, for messages that contain one. *)
Definition dquote : string := String "034"%char EmptyString.

(** [String.prototype.startsWith]: [startsWith s pre] is [s.startsWith(pre)]. *)
Fixpoint startsWith (s pre : string) {struct pre} : bool :=
  match pre with
  | EmptyString => true
  | String c pre' =>
      match s with
      | EmptyString => false
      | String d s' => if Ascii.eqb c d then startsWith s' pre' else false
      end
  end.

(** [String.prototype.includes], used for messages: [pat] occurs in [s]. *)
Fixpoint includes (s pat : string) : bool :=
  startsWith s pat ||
  match s with
  | EmptyString => false
  | String _ s' => includes s' pat
  end.

(** [String.prototype.toLowerCase]: the lowercase mapping of the Unicode
    Default Case Conversion, locale-independent, code point by code point. *)
Definition toLowerCase (s : string) : string :=
  Unicode.encode (Unicode.lowercase [] (Unicode.decode s)).

(** [Array.prototype.includes] on an array of strings. *)
Definition array_includes (l : list string) (x : string) : bool :=
  existsb (String.eqb x) l.

(** [Array.prototype.join]. *)
Definition join (sep : string) (l : list string) : string :=
  String.concat sep l.

(** [String.prototype.split] at one character: never the empty array. *)
Fixpoint split (c : ascii) (s : string) : list string :=
  match s with
  | EmptyString => [EmptyString]
  | String a s' =>
      if Ascii.eqb a c then EmptyString :: split c s'
      else match split c s' with
           | h :: t => String a h :: t
           | [] => [String a EmptyString]
           end
  end.

(** Truthiness of a string: non-empty. *)
Definition truthy_string (s : string) : bool :=
  match s with EmptyString => false | _ => true end.

End Js.

(** ** Untyped values and exceptions *)

(** A value received from the client.  Only three things about it matter to
    the program: whether it is a string, whether it is truthy, and how it
    prints in a message. *)
Inductive JsValue : Type :=
| JsUndefined
| JsString (s : string)
| JsOther (truthy : bool) (shown : string).

Definition js_truthy (v : JsValue) : bool :=
  match v with
  | JsUndefined => false
  | JsString s => Js.truthy_string s
  | JsOther t _ => t
  end.

Definition js_show (v : JsValue) : string :=
  match v with
  | JsUndefined => "undefined"
  | JsString s => s
  | JsOther _ shown => shown
  end.

(** A thrown [Error] object: its [name] and its [message]. *)
Record Exn : Type := mkExn { exn_name : string; exn_message : string }.

(** [new Error(message)]. *)
Definition new_Error (message : string) : Exn := mkExn "Error" message.

(** [new Error(m)] where [m] may be [undefined]: the message is then empty. *)
Definition new_Error_opt (message : option string) : Exn :=
  new_Error (default "" message).

(** [String(error)], which is what a template literal does with an error. *)
Definition exn_toString (e : Exn) : string :=
  match exn_name e, exn_message e with
  | EmptyString, m => m
  | n, EmptyString => n
  | n, m => n +:+ ": " +:+ m
  end.

(** The [TypeError] that Node's [validateString] throws. *)
Definition ERR_INVALID_ARG_TYPE (argname : string) (v : JsValue) : Exn :=
  mkExn "TypeError [ERR_INVALID_ARG_TYPE]"
        ("The " +:+ Js.dquote +:+ argname +:+ Js.dquote +:+
         " argument must be of type string. Received " +:+ js_show v).

(** Synchronous code that may throw. *)
Definition Throws (A : Type) : Type := Exn + A.

Definition validateString (argname : string) (v : JsValue) : Throws string :=
  match v with
  | JsString s => inr s
  | _ => inl (ERR_INVALID_ARG_TYPE argname v)
  end.

Definition Throws_bind {A B : Type} (f : A -> Throws B) (m : Throws A) : Throws B :=
  match m with
  | inl e => inl e
  | inr a => f a
  end.

#[global] Instance Throws_mret : MRet Throws := fun _ a => inr a.
#[global] Instance Throws_mbind : MBind Throws := fun _ _ f m => Throws_bind f m.

(** ** The host: what [process] and [os] report *)

Record Host : Type := mkHost {
  cwd : string;            (* process.cwd() *)
  homedir : string;        (* os.homedir() *)
  tmpdir : string;         (* os.tmpdir() *)
  platform : string;       (* os.platform() *)
  arch : string;           (* os.arch() *)
  release : string;        (* os.release() *)
  hostname : string;       (* os.hostname() *)
  uptime : Z;              (* os.uptime(): whole seconds *)
  totalmem : Z;            (* os.totalmem(): bytes *)
  freemem : Z;             (* os.freemem(): bytes *)
  cpus : nat;              (* os.cpus().length *)
  node_version : string;   (* process.version *)
  now_ja_JP : string       (* new Date().toLocaleString("ja-JP") *)
}.

(** ** Node's [path] module (POSIX) *)

Module Path.

Definition isAbsolute (p : string) : bool :=
  match p with
  | String c _ => Ascii.eqb c "/"
  | EmptyString => false
  end.

(** [normalizeString], on the segments between separators.  [stack] is the
    result so far, last segment first.  Empty segments and [.] are dropped;
    [..] removes the last kept segment, and is itself kept only above the
    start of a relative path ([allowAboveRoot]). *)
Fixpoint normalizeSegments (allowAboveRoot : bool) (stack segs : list string)
  : list string :=
  match segs with
  | [] => stack
  | s :: rest =>
      if String.eqb s "" || String.eqb s "." then
        normalizeSegments allowAboveRoot stack rest
      else if String.eqb s ".." then
        match stack with
        | top :: below =>
            if String.eqb top ".." then
              normalizeSegments allowAboveRoot
                (if allowAboveRoot then ".." :: stack else stack) rest
            else normalizeSegments allowAboveRoot below rest
        | [] =>
            normalizeSegments allowAboveRoot
              (if allowAboveRoot then [".."] else []) rest
        end
      else normalizeSegments allowAboveRoot (s :: stack) rest
  end.

Definition normalizeString (p : string) (allowAboveRoot : bool) : string :=
  Js.join "/" (rev (normalizeSegments allowAboveRoot [] (Js.split "/" p))).

(** The loop of [path.resolve]: the arguments from the last to the first
    (here [rev_args], the last argument at the head), then the working
    directory, until the path built so far is absolute.  Returns
    [resolvedPath] and [resolvedAbsolute]. *)
Fixpoint resolveLoop (cwd : string) (rev_args : list JsValue)
         (resolvedPath : string) : Throws (string * bool) :=
  match rev_args with
  | [] =>
      if Js.truthy_string cwd
      then inr (cwd +:+ "/" +:+ resolvedPath, isAbsolute cwd)
      else inr (resolvedPath, false)
  | v :: rest =>
      p ← validateString ("paths[" +:+ pretty (length rest) +:+ "]") v;
      if Js.truthy_string p then
        if isAbsolute p then inr (p +:+ "/" +:+ resolvedPath, true)
        else resolveLoop cwd rest (p +:+ "/" +:+ resolvedPath)
      else resolveLoop cwd rest resolvedPath
  end.

(** [path.resolve(...args)]. *)
Definition resolve (h : Host) (args : list JsValue) : Throws string :=
  '(resolvedPath, resolvedAbsolute) ← resolveLoop (cwd h) (rev args) "";
  let normalized := normalizeString resolvedPath (negb resolvedAbsolute) in
  if resolvedAbsolute then inr ("/" +:+ normalized)
  else if Js.truthy_string normalized then inr normalized
  else inr ".".

(** The last segment of a path, trailing separators ignored. *)
Definition lastSegment (p : string) : string :=
  List.last (filter (fun s => Js.truthy_string s = true) (Js.split "/" p)) "".

(** The position of the last [.] of a segment and the text from it on. *)
Fixpoint lastDot (s : string) : option (nat * string) :=
  match s with
  | EmptyString => None
  | String c s' =>
      match lastDot s' with
      | Some (i, suffix) => Some (S i, suffix)
      | None => if Ascii.eqb c "." then Some (O, s) else None
      end
  end.

(** [path.extname(p)]: from the last [.] of the last segment to its end;
    empty when there is no [.], when the [.] starts the segment, and for
    the segment [..]. *)
Definition extname (v : JsValue) : Throws string :=
  p ← validateString "path" v;
  let base := lastSegment p in
  match lastDot base with
  | None => inr ""
  | Some (O, _) => inr ""
  | Some (S _, suffix) => if String.eqb base ".." then inr "" else inr suffix
  end.

(** [path.dirname(p)]: the scan of Node's loop, from the end of the path
    down to index 1.  [skipSeparators] passes the trailing separators,
    [skipName] the last segment; what is left ends at the separator that
    closes the directory part. *)
Fixpoint skipSeparators (rev_tail : list ascii) : list ascii :=
  match rev_tail with
  | c :: rest => if Ascii.eqb c "/" then skipSeparators rest else rev_tail
  | [] => []
  end.

Fixpoint skipName (rev_tail : list ascii) : list ascii :=
  match rev_tail with
  | c :: rest => if Ascii.eqb c "/" then rev_tail else skipName rest
  | [] => []
  end.

Definition dirname (v : JsValue) : Throws string :=
  p ← validateString "path" v;
  match p with
  | EmptyString => inr "."
  | String c0 tail =>
      let hasRoot := Ascii.eqb c0 "/" in
      match skipName (skipSeparators (rev (list_ascii_of_string tail))) with
      | [] => inr (if hasRoot then "/" else ".")
      | _ :: rev_dir =>
          if hasRoot && bool_decide (rev_dir = []) then inr "//"
          else inr (String c0 (string_of_list_ascii (rev rev_dir)))
      end
  end.

End Path.

(** ** PathValidator *)

Record PathValidator : Type := mkPathValidator {
  allowedPaths : list string;
  blockedPaths : list string;
  allowedExtensions : list string
}.

(** The constructor: one allowed directory under the home directory, the
    system directories and three dot-directories of the home blocked. *)
Definition PathValidator_new (h : Host) : Throws PathValidator :=
  area ← Path.resolve h [JsString (homedir h); JsString "Documents/00_AI_Area"];
  ssh ← Path.resolve h [JsString (homedir h); JsString ".ssh"];
  aws ← Path.resolve h [JsString (homedir h); JsString ".aws"];
  config ← Path.resolve h [JsString (homedir h); JsString ".config"];
  mret {|
    allowedPaths := [area];
    blockedPaths :=
      ["/etc"; "/bin"; "/sbin"; "/usr/bin"; "/usr/sbin"; "/System"; "/Windows";
       "/Program Files"; "/Program Files (x86)"; ssh; aws; config];
    allowedExtensions :=
      [".txt"; ".md"; ".json"; ".js"; ".ts"; ".html"; ".css";
       ".py"; ".java"; ".cpp"; ".c"; ".h"; ".xml"; ".yaml"; ".yml";
       ".log"; ".csv"; ".tsv"; ".sql"; ".sh"; ".bat"; ".ps1"]
  |}.

(** The object [validatePath] returns. *)
Record PathValidation : Type := mkPathValidation {
  isValid : bool;
  normalizedPath : JsValue;
  error : option string
}.

Definition msg_blocked (blockedPath : string) : string :=
  "アクセスが禁止されているディレクトリです: " +:+ blockedPath.

Definition msg_not_allowed (allowed : list string) : string :=
  "許可されていないパスです。アクセス可能なパス: " +:+ Js.join ", " allowed.

Definition msg_invalid_path (e : Exn) : string :=
  "無効なパスです: " +:+ exn_toString e.

(** The [for] loop over [blockedPaths]: the result of its [return], if any. *)
Fixpoint checkBlocked (h : Host) (normalized : string) (blocked : list string)
  : Throws (option PathValidation) :=
  match blocked with
  | [] => mret None
  | blockedPath :: rest =>
      resolvedBlocked ← Path.resolve h [JsString blockedPath];
      if Js.startsWith normalized resolvedBlocked then
        mret (Some {| isValid := false;
                      normalizedPath := JsString normalized;
                      error := Some (msg_blocked blockedPath) |})
      else checkBlocked h normalized rest
  end.

(** The body of the [try] block of [validatePath]. *)
Definition validatePath_try (h : Host) (pv : PathValidator) (inputPath : JsValue)
  : Throws PathValidation :=
  normalized ← Path.resolve h [inputPath];
  hit ← checkBlocked h normalized (blockedPaths pv);
  match hit with
  | Some denied => mret denied
  | None =>
      let isAllowed :=
        existsb (fun allowedPath => Js.startsWith normalized allowedPath)
                (allowedPaths pv) in
      if negb isAllowed then
        mret {| isValid := false;
                normalizedPath := JsString normalized;
                error := Some (msg_not_allowed (allowedPaths pv)) |}
      else
        mret {| isValid := true;
                normalizedPath := JsString normalized;
                error := None |}
  end.

Definition validatePath (h : Host) (pv : PathValidator) (inputPath : JsValue)
  : PathValidation :=
  match validatePath_try h pv inputPath with
  | inr result => result
  | inl e => {| isValid := false;
                normalizedPath := inputPath;
                error := Some (msg_invalid_path e) |}
  end.

(** The object [validateFileExtension] returns. *)
Record ExtValidation : Type := mkExtValidation {
  ext_isValid : bool;
  ext_error : option string
}.

Definition msg_bad_extension (ext : string) (allowed : list string) : string :=
  "許可されていないファイル拡張子です: " +:+ ext +:+
  "。許可されている拡張子: " +:+ Js.join ", " allowed.

(** [validateFileExtension] has no [try]: a [TypeError] of [path.extname]
    would leave it. *)
Definition validateFileExtension (pv : PathValidator) (filepath : JsValue)
  : Throws ExtValidation :=
  e ← Path.extname filepath;
  let ext := Js.toLowerCase e in
  if Js.truthy_string ext && negb (Js.array_includes (allowedExtensions pv) ext)
  then mret {| ext_isValid := false;
               ext_error := Some (msg_bad_extension ext (allowedExtensions pv)) |}
  else mret {| ext_isValid := true; ext_error := None |}.

Definition getAllowedPaths_validator (pv : PathValidator) : list string :=
  allowedPaths pv.

(** ** Tool results and requests *)

Record TextContent : Type := mkTextContent { type : string; text : string }.

Record CallToolResult : Type := mkCallToolResult {
  content : list TextContent;
  isError : bool
}.

(** The one shape of result the server builds: a single text item. *)
Definition textResult (t : string) (err : bool) : CallToolResult :=
  {| content := [ {| type := "text"; text := t |} ]; isError := err |}.

(** [request.params] of a [tools/call] request; [arguments] is optional. *)
Record CallToolParams : Type := mkCallToolParams {
  name : string;
  arguments : option (gmap string JsValue)
}.

(** [args.key]: a missing member reads as [undefined]. *)
Definition member (args : gmap string JsValue) (key : string) : JsValue :=
  default JsUndefined (args !! key).

(** ** The file system and the world *)

Record Dirent : Type := mkDirent {
  dirent_name : string;
  dirent_isDirectory : bool
}.

(** The part of [fs/promises] the server uses, over any file system state.
    Each operation receives the values the program passes; a failure is the
    exception the promise rejects with.  A failed write or [mkdir] may still
    have changed the state. *)
Class FileSystem (FS : Type) : Type := {
  fs_readFile : JsValue -> FS -> Throws string;
  fs_writeFile : JsValue -> JsValue -> FS -> FS * Throws unit;
  fs_mkdir_recursive : JsValue -> FS -> FS * Throws unit;
  fs_readdir_withFileTypes : JsValue -> FS -> Throws (list Dirent)
}.

(** What the process does to the outside, in order. *)
Inductive Event : Type :=
| ConsoleError (line : string)
| ConsoleErrorParams (label : string) (params : CallToolParams)
| ConsoleErrorExn (label : string) (e : Exn)
| FsReadFile (p : JsValue)
| FsWriteFile (p data : JsValue)
| FsMkdir (p : JsValue)
| FsReaddir (p : JsValue).

Definition is_fs_call (ev : Event) : bool :=
  match ev with
  | FsReadFile _ | FsWriteFile _ _ | FsMkdir _ | FsReaddir _ => true
  | _ => false
  end.

Record World (FS : Type) : Type := mkWorld {
  files : FS;
  trace : list Event
}.
Arguments mkWorld {FS} _ _.
Arguments files {FS} _.
Arguments trace {FS} _.

(** An [async] function body: it runs in a world, and returns or throws. *)
Definition Task (FS A : Type) : Type := World FS -> World FS * Throws A.

#[global] Instance Task_mret {FS} : MRet (Task FS) := fun _ a w => (w, inr a).
#[global] Instance Task_mbind {FS} : MBind (Task FS) := fun _ _ f m w =>
  match m w with
  | (w', inr a) => f a w'
  | (w', inl e) => (w', inl e)
  end.

Definition throw {FS A} (e : Exn) : Task FS A := fun w => (w, inl e).

Definition try_catch {FS A} (body : Task FS A) (handler : Exn -> Task FS A)
  : Task FS A :=
  fun w =>
    match body w with
    | (w', inl e) => handler e w'
    | done => done
    end.

Definition liftThrows {FS A} (m : Throws A) : Task FS A := fun w => (w, m).

Definition emit {FS} (ev : Event) : Task FS unit :=
  fun w => (mkWorld (files w) (trace w ++ [ev]), inr tt).

Definition console_error {FS} (line : string) : Task FS unit :=
  emit (ConsoleError line).

(** [if (cond) throw e;] *)
Definition throw_if {FS} (cond : bool) (e : Exn) : Task FS unit :=
  if cond then throw e else mret tt.

Section FsCalls.
Context {FS : Type} `{FileSystem FS}.

Definition readFile_utf8 (p : JsValue) : Task FS string :=
  fun w => (mkWorld (files w) (trace w ++ [FsReadFile p]),
            fs_readFile p (files w)).

Definition writeFile_utf8 (p data : JsValue) : Task FS unit :=
  fun w => let '(fs', r) := fs_writeFile p data (files w) in
           (mkWorld fs' (trace w ++ [FsWriteFile p data]), r).

Definition mkdir_recursive (p : JsValue) : Task FS unit :=
  fun w => let '(fs', r) := fs_mkdir_recursive p (files w) in
           (mkWorld fs' (trace w ++ [FsMkdir p]), r).

Definition readdir_withFileTypes (p : JsValue) : Task FS (list Dirent) :=
  fun w => (mkWorld (files w) (trace w ++ [FsReaddir p]),
            fs_readdir_withFileTypes p (files w)).
End FsCalls.

(** ** Text building *)

Definition LF : string := String "010"%char EmptyString.

Definition quoted (s : string) : string := Js.dquote +:+ s +:+ Js.dquote.

(** A template literal of several lines: the lines joined by line feeds. *)
Definition lines (l : list string) : string := Js.join LF l.

Module Json.

Definition backslash : string := String "092"%char EmptyString.

Definition hex_digit (n : nat) : string :=
  String.substring n 1 "0123456789abcdef".

(** [JSON.stringify] of one character of a string. *)
Definition escape_char (c : ascii) : string :=
  let n := nat_of_ascii c in
  if (n =? 34)%nat then backslash +:+ Js.dquote
  else if (n =? 92)%nat then backslash +:+ backslash
  else if (n =? 8)%nat then backslash +:+ "b"
  else if (n =? 9)%nat then backslash +:+ "t"
  else if (n =? 10)%nat then backslash +:+ "n"
  else if (n =? 12)%nat then backslash +:+ "f"
  else if (n =? 13)%nat then backslash +:+ "r"
  else if (n <? 32)%nat then
    backslash +:+ "u00" +:+ hex_digit (n / 16) +:+ hex_digit (n mod 16)
  else String c EmptyString.

Fixpoint escape (s : string) : string :=
  match s with
  | EmptyString => EmptyString
  | String c s' => escape_char c +:+ escape s'
  end.

(** [JSON.stringify(s)] for a string [s]. *)
Definition str (s : string) : string := quoted (escape s).

(** One [key: value] line of a pretty-printed object at an indentation. *)
Definition field (indent key value : string) : string :=
  indent +:+ str key +:+ ": " +:+ value.

End Json.

(** ** Numbers *)

(** [Math.floor(a / b)] for whole [a] and positive whole [b]. *)
Definition Math_floor_div (a b : Z) : Z := (a / b)%Z.

(** [Math.round(a / b)] for whole [a] and positive whole [b]: the nearest
    whole number, a half going up. *)
Definition Math_round_div (a b : Z) : Z := ((2 * a + b) / (2 * b))%Z.

Definition GiB : Z := (1024 * 1024 * 1024)%Z.

(** ** getSystemInfo: the [info] object *)

Record MemoryInfo : Type := mkMemoryInfo { total : string; free : string }.

Record SystemInfo : Type := mkSystemInfo {
  info_platform : string;
  info_arch : string;
  info_release : string;
  info_hostname : string;
  info_uptime : string;
  info_memory : MemoryInfo;
  info_cpus : nat;
  info_homeDir : string;
  info_tmpDir : string
}.

Definition uptime_hours (h : Host) : Z := Math_floor_div (uptime h) 3600.
Definition total_gigabytes (h : Host) : Z := Math_round_div (totalmem h) GiB.
Definition free_gigabytes (h : Host) : Z := Math_round_div (freemem h) GiB.

Definition systemInfo (h : Host) : SystemInfo := {|
  info_platform := platform h;
  info_arch := arch h;
  info_release := release h;
  info_hostname := hostname h;
  info_uptime := pretty (uptime_hours h) +:+ "時間";
  info_memory := {| total := pretty (total_gigabytes h) +:+ "GB";
                    free := pretty (free_gigabytes h) +:+ "GB" |};
  info_cpus := cpus h;
  info_homeDir := homedir h;
  info_tmpDir := tmpdir h
|}.

(** [JSON.stringify(info, null, 2)]. *)
Definition JSON_stringify_info (i : SystemInfo) : string :=
  lines [
    "{";
    Json.field "  " "platform" (Json.str (info_platform i)) +:+ ",";
    Json.field "  " "arch" (Json.str (info_arch i)) +:+ ",";
    Json.field "  " "release" (Json.str (info_release i)) +:+ ",";
    Json.field "  " "hostname" (Json.str (info_hostname i)) +:+ ",";
    Json.field "  " "uptime" (Json.str (info_uptime i)) +:+ ",";
    Json.field "  " "memory" "{";
    Json.field "    " "total" (Json.str (total (info_memory i))) +:+ ",";
    Json.field "    " "free" (Json.str (free (info_memory i)));
    "  },";
    Json.field "  " "cpus" (pretty (info_cpus i)) +:+ ",";
    Json.field "  " "homeDir" (Json.str (info_homeDir i)) +:+ ",";
    Json.field "  " "tmpDir" (Json.str (info_tmpDir i));
    "}"
  ].

(** ** createSampleFile: the template *)

Definition sampleContent (h : Host) : string :=
  lines [
    "# サンプルファイル";
    "";
    "作成日時: " +:+ now_ja_JP h;
    "";
    "これは MCP サーバによって作成されたサンプルファイルです。";
    "";
    "## 内容";
    "- MCP (Model Context Protocol) のテスト";
    "- ClaudeDesktop との連携確認";
    "- ファイル操作の動作確認";
    "- セキュリティ制限付きパスアクセス";
    "";
    "## システム情報";
    "- Node.js バージョン: " +:+ node_version h;
    "- プラットフォーム: " +:+ platform h;
    "- アーキテクチャ: " +:+ arch h;
    "";
    "## セキュリティ設定";
    "- パスアクセス制限: 有効";
    "- 許可されたディレクトリのみアクセス可能";
    "";
    "Happy coding! 🚀";
    ""
  ].

(** ** SimpleMCPServer: the tools *)

Section Tools.
Context {FS : Type} `{FileSystem FS}.
Variable h : Host.
Variable pv : PathValidator.

Definition readFile (filepath : JsValue) : Task FS CallToolResult :=
  try_catch
    (let pathValidation := validatePath h pv filepath in
     throw_if (negb (isValid pathValidation))
              (new_Error_opt (error pathValidation));;
     extValidation ←
       liftThrows (validateFileExtension pv (normalizedPath pathValidation));
     throw_if (negb (ext_isValid extValidation))
              (new_Error_opt (ext_error extValidation));;
     console_error
       ("Reading file: " +:+ js_show (normalizedPath pathValidation));;
     fileContent ← readFile_utf8 (normalizedPath pathValidation);
     mret (textResult
             ("ファイル " +:+ quoted (js_show (normalizedPath pathValidation))
              +:+ " の内容:" +:+ LF +:+ LF +:+ fileContent)
             false))
    (fun e => throw (new_Error ("ファイルの読み込みに失敗: " +:+ exn_toString e))).

Definition writeFile (filepath fileContent : JsValue) : Task FS CallToolResult :=
  try_catch
    (let pathValidation := validatePath h pv filepath in
     throw_if (negb (isValid pathValidation))
              (new_Error_opt (error pathValidation));;
     extValidation ←
       liftThrows (validateFileExtension pv (normalizedPath pathValidation));
     throw_if (negb (ext_isValid extValidation))
              (new_Error_opt (ext_error extValidation));;
     console_error
       ("Writing file: " +:+ js_show (normalizedPath pathValidation));;
     dir ← liftThrows (Path.dirname (normalizedPath pathValidation));
     mkdir_recursive (JsString dir);;
     writeFile_utf8 (normalizedPath pathValidation) fileContent;;
     mret (textResult
             ("ファイル " +:+ quoted (js_show (normalizedPath pathValidation))
              +:+ " に正常に書き込みました")
             false))
    (fun e => throw (new_Error ("ファイルの書き込みに失敗: " +:+ exn_toString e))).

Definition listDirectory (dirpath : JsValue) : Task FS CallToolResult :=
  try_catch
    (let pathValidation := validatePath h pv dirpath in
     throw_if (negb (isValid pathValidation))
              (new_Error_opt (error pathValidation));;
     console_error
       ("Listing directory: " +:+ js_show (normalizedPath pathValidation));;
     items ← readdir_withFileTypes (normalizedPath pathValidation);
     let fileList :=
       map (fun item =>
              (if dirent_isDirectory item then "📁" else "📄")
              +:+ " " +:+ dirent_name item) items in
     mret (textResult
             ("ディレクトリ " +:+ quoted (js_show (normalizedPath pathValidation))
              +:+ " の内容:" +:+ LF +:+ LF +:+ Js.join LF fileList)
             false))
    (fun e => throw (new_Error ("ディレクトリの一覧取得に失敗: " +:+ exn_toString e))).

Definition getSystemInfo : Task FS CallToolResult :=
  console_error "Getting system info";;
  let info := systemInfo h in
  mret (textResult
          ("システム情報:" +:+ LF +:+ LF +:+ JSON_stringify_info info)
          false).

Definition createSampleFile (filename : JsValue) : Task FS CallToolResult :=
  let sampleFilename :=
    if js_truthy filename then filename else JsString "sample.txt" in
  try_catch
    (fullPath ← liftThrows (Path.resolve h [JsString (cwd h); sampleFilename]);
     let pathValidation := validatePath h pv (JsString fullPath) in
     throw_if (negb (isValid pathValidation))
              (new_Error_opt (error pathValidation));;
     console_error
       ("Creating sample file: " +:+ js_show (normalizedPath pathValidation));;
     let written := sampleContent h in
     writeFile_utf8 (normalizedPath pathValidation) (JsString written);;
     mret (textResult
             ("サンプルファイル " +:+ quoted (js_show (normalizedPath pathValidation))
              +:+ " を作成しました！" +:+ LF +:+ LF +:+ "内容:" +:+ LF +:+ written)
             false))
    (fun e => throw (new_Error ("サンプルファイルの作成に失敗: " +:+ exn_toString e))).

Definition getAllowedPaths : Task FS CallToolResult :=
  let allowed := getAllowedPaths_validator pv in
  mret (textResult
          ("アクセス可能なパス一覧:" +:+ LF +:+ LF +:+
           Js.join LF (map (fun p => "📁 " +:+ p) allowed) +:+ LF +:+ LF +:+
           "注意: これらのディレクトリとそのサブディレクトリのみアクセス可能です。")
          false).

(** The six tools of the catalogue [TOOLS]. *)
Definition TOOLS : list string :=
  ["read_file"; "write_file"; "list_directory"; "get_system_info";
   "create_sample_file"; "get_allowed_paths"].

(** The [switch] of the [CallTool] handler. *)
Definition dispatch (toolName : string) (args : gmap string JsValue)
  : Task FS CallToolResult :=
  if String.eqb toolName "read_file" then
    readFile (member args "filepath")
  else if String.eqb toolName "write_file" then
    writeFile (member args "filepath") (member args "content")
  else if String.eqb toolName "list_directory" then
    listDirectory (member args "dirpath")
  else if String.eqb toolName "get_system_info" then
    getSystemInfo
  else if String.eqb toolName "create_sample_file" then
    createSampleFile (member args "filename")
  else if String.eqb toolName "get_allowed_paths" then
    getAllowedPaths
  else throw (new_Error ("Unknown tool: " +:+ toolName)).

(** The handler registered for [CallToolRequestSchema]. *)
Definition callTool (params : CallToolParams) : Task FS CallToolResult :=
  emit (ConsoleErrorParams "CallTool request received:" params);;
  match arguments params with
  | None => mret (textResult "Error: No arguments provided" true)
  | Some args =>
      try_catch
        (dispatch (name params) args)
        (fun e =>
           emit (ConsoleErrorExn "Tool execution error:" e);;
           mret (textResult ("Error: " +:+ exn_message e) true))
  end.

(** The session: the transport delivers one request, awaits its result and
    only then accepts the next.  A handler that throws would end the
    session here; the answers given so far are returned with the
    exception. *)
Fixpoint serve (requests : list CallToolParams) (w : World FS)
  : World FS * list CallToolResult * option Exn :=
  match requests with
  | [] => (w, [], None)
  | params :: rest =>
      match callTool params w with
      | (w', inr result) =>
          let '(w'', results, crashed) := serve rest w' in
          (w'', result :: results, crashed)
      | (w', inl e) => (w', [], Some e)
      end
  end.

End Tools.

(** ** A file system in memory

    One instance of [FileSystem], used to run the tools on concrete worlds:
    a finite map from absolute paths to files and directories, with the
    root always present. *)

Module MemFS.

Inductive Inode : Type :=
| File (data : string)
| Directory.

Definition errno (code what syscall p : string) : Exn :=
  new_Error (code +:+ ": " +:+ what +:+ ", " +:+ syscall +:+ " '" +:+ p +:+ "'").

Definition ENOENT := errno "ENOENT" "no such file or directory".
Definition EISDIR := errno "EISDIR" "illegal operation on a directory".
Definition ENOTDIR := errno "ENOTDIR" "not a directory".
Definition EEXIST := errno "EEXIST" "file already exists".

Definition isDirectory (fs : gmap string Inode) (p : string) : bool :=
  String.eqb p "/" ||
  match fs !! p with Some Directory => true | _ => false end.

Definition readFile (v : JsValue) (fs : gmap string Inode) : Throws string :=
  p ← validateString "path" v;
  match fs !! p with
  | Some (File data) => inr data
  | Some Directory => inl (EISDIR "read" p)
  | None => if String.eqb p "/" then inl (EISDIR "read" p)
            else inl (ENOENT "open" p)
  end.

Definition writeFile (v data : JsValue) (fs : gmap string Inode)
  : gmap string Inode * Throws unit :=
  match data, validateString "path" v with
  | JsString d, inr p =>
      match Path.dirname (JsString p) with
      | inr dir =>
          if isDirectory fs p then (fs, inl (EISDIR "open" p))
          else if isDirectory fs dir then (<[p := File d]> fs, inr tt)
          else (fs, inl (ENOENT "open" p))
      | inl e => (fs, inl e)
      end
  | JsString _, inl e => (fs, inl e)
  | _, _ => (fs, inl (ERR_INVALID_ARG_TYPE "data" data))
  end.

(** The directories from the root down to [p]. *)
Fixpoint ancestors (base : string) (segs : list string) : list string :=
  match segs with
  | [] => []
  | s :: rest => let d := base +:+ "/" +:+ s in d :: ancestors d rest
  end.

Definition segments (p : string) : list string :=
  filter (fun s => Js.truthy_string s = true) (Js.split "/" p).

Definition isFile (fs : gmap string Inode) (p : string) : bool :=
  match fs !! p with Some (File _) => true | _ => false end.

Definition mkdir (v : JsValue) (fs : gmap string Inode)
  : gmap string Inode * Throws unit :=
  match validateString "path" v with
  | inr p =>
      let dirs := ancestors "" (segments p) in
      if existsb (isFile fs) dirs then (fs, inl (EEXIST "mkdir" p))
      else (foldr (fun d m => <[d := Directory]> m) fs dirs, inr tt)
  | inl e => (fs, inl e)
  end.

Definition entryOf (dir : string) (entry : string * Inode) : list Dirent :=
  let '(p, node) := entry in
  match Path.dirname (JsString p) with
  | inr d =>
      if String.eqb d dir && negb (String.eqb p "/") then
        [ {| dirent_name := Path.lastSegment p;
             dirent_isDirectory :=
               match node with Directory => true | File _ => false end |} ]
      else []
  | inl _ => []
  end.

Definition readdir (v : JsValue) (fs : gmap string Inode)
  : Throws (list Dirent) :=
  p ← validateString "path" v;
  if isDirectory fs p then inr (map_to_list fs ≫= entryOf p)
  else if isFile fs p then inl (ENOTDIR "scandir" p)
  else inl (ENOENT "scandir" p).

#[global] Instance fileSystem : FileSystem (gmap string Inode) := {|
  fs_readFile := readFile;
  fs_writeFile := writeFile;
  fs_mkdir_recursive := mkdir;
  fs_readdir_withFileTypes := readdir
|}.

End MemFS.

(** ** Vocabulary of the specification *)

(** The resolved absolute path of an input string: what
    [path.resolve(inputPath)] returns (it does not throw on a string, see
    [resolve_string] below). *)
Definition resolved (h : Host) (p : string) : string :=
  match Path.resolve h [JsString p] with
  | inr n => n
  | inl _ => p
  end.

(** Component-aligned containment, in the words of the specification: the
    path equals the root or starts with the root followed by a separator. *)
Definition componentAligned (path root : string) : bool :=
  String.eqb path root || Js.startsWith path (root +:+ "/").

(** A string without a separator. *)
Definition noSeparator (s : string) : Prop :=
  ~ In "/"%char (list_ascii_of_string s).

(** A string without a dot. *)
Definition noDot (s : string) : Prop :=
  ~ In "."%char (list_ascii_of_string s).

(** A segment of a resolved path: not empty, not [.] or [..], no separator. *)
Definition cleanSegment (s : string) : Prop :=
  s <> "" /\ s <> "." /\ s <> ".." /\ noSeparator s.

(** The text of a path's extension as [path.extname] gives it (it does not
    throw on a string). *)
Definition extension (p : string) : string :=
  match Path.extname (JsString p) with
  | inr e => e
  | inl _ => ""
  end.









(** The three results [validatePath] builds for a resolved path [n]. *)
Definition denied_blocked (n blockedPath : string) : PathValidation :=
  {| isValid := false;
     normalizedPath := JsString n;
     error := Some (msg_blocked blockedPath) |}.

Definition denied_not_allowed (pv : PathValidator) (n : string) : PathValidation :=
  {| isValid := false;
     normalizedPath := JsString n;
     error := Some (msg_not_allowed (allowedPaths pv)) |}.

Definition allowed (n : string) : PathValidation :=
  {| isValid := true; normalizedPath := JsString n; error := None |}.

(** The test of the deny loop for one entry. *)
Definition hitsBlocked (h : Host) (n blockedPath : string) : bool :=
  Js.startsWith n (resolved h blockedPath).

(** The world after some more events, the file system as it was. *)
Definition after {FS : Type} (w : World FS) (events : list Event) : World FS :=
  mkWorld (files w) (trace w ++ events).

(** The first thing the handler does: it logs the request. *)
Definition received (params : CallToolParams) : Event :=
  ConsoleErrorParams "CallTool request received:" params.

(** The result the handler builds from a caught exception. *)
Definition errorResult (e : Exn) : CallToolResult :=
  textResult ("Error: " +:+ exn_message e) true.

(** The text of every item of a result contains [pat]. *)
Definition names (r : CallToolResult) (pat : string) : bool :=
  forallb (fun item => Js.includes (text item) pat) (content r).

(** What the [catch] of a tool throws on: a new error whose message is
    the tool's prefix and the text of the error caught. *)
Definition rethrown (prefix : string) (e : Exn) : Exn :=
  new_Error (prefix +:+ exn_toString e).

(** The calls to the file system in a trace. *)
Definition fsCalls (t : list Event) : list Event := List.filter is_fs_call t.

(** The absolute path of [p] resolved against the directory [dir]: what
    [path.resolve(dir, p)] returns on two strings. *)
Definition resolvedIn (h : Host) (dir p : string) : string :=
  match Path.resolve h [JsString dir; JsString p] with
  | inr n => n
  | inl _ => p
  end.

(** The same policy with other allowed extensions. *)
Definition withExtensions (pv : PathValidator) (exts : list string)
  : PathValidator :=
  {| allowedPaths := allowedPaths pv;
     blockedPaths := blockedPaths pv;
     allowedExtensions := exts |}.

(** What the result of [create_sample_file] says before the content. *)
Definition sampleHeader (n : JsValue) : string :=
  "サンプルファイル " +:+ quoted (js_show n) +:+ " を作成しました！"
  +:+ LF +:+ LF +:+ "内容:" +:+ LF.

(** ** Concrete hosts, policies and worlds *)

Module Example.

Definition host : Host :=
  mkHost "/sandbox/work" "/home/myself" "/tmp" "linux" "x64" "6.1.0" "box"
         7325 17179869184 8053063680 8 "v20.11.0" "2025/1/1 0:00:00".

(** The scenario of the specification. *)
Definition sandbox : PathValidator :=
  {| allowedPaths := ["/sandbox"];
     blockedPaths := ["/sandbox/.secret"];
     allowedExtensions := [".txt"; ".md"] |}.

(** What the constructor installs on [host]. *)
Definition installed : PathValidator :=
  {| allowedPaths := ["/home/myself/Documents/00_AI_Area"];
     blockedPaths :=
       ["/etc"; "/bin"; "/sbin"; "/usr/bin"; "/usr/sbin"; "/System";
        "/Windows"; "/Program Files"; "/Program Files (x86)";
        "/home/myself/.ssh"; "/home/myself/.aws"; "/home/myself/.config"];
     allowedExtensions :=
       [".txt"; ".md"; ".json"; ".js"; ".ts"; ".html"; ".css";
        ".py"; ".java"; ".cpp"; ".c"; ".h"; ".xml"; ".yaml"; ".yml";
        ".log"; ".csv"; ".tsv"; ".sql"; ".sh"; ".bat"; ".ps1"] |}.

(** A world whose file system holds the sandbox directory and one file. *)
Definition world : World (gmap string MemFS.Inode) :=
  mkWorld (<["/sandbox/work" := MemFS.Directory]>
           (<["/sandbox/hello.txt" := MemFS.File "hello"]>
            (<["/sandbox" := MemFS.Directory]> ∅))) [].

Definition request (tool : string) (args : list (string * JsValue))
  : CallToolParams :=
  {| name := tool; arguments := Some (list_to_map args) |}.

End Example.

(** ** Vocabulary of the further properties *)

(** The test a resolved path has to pass to be allowed: no blocked entry
    hits it and some allowed entry is a prefix of it. *)
Definition permittedPath (h : Host) (pv : PathValidator) (n : string) : bool :=
  forallb (fun b => negb (hitsBlocked h n b)) (blockedPaths pv) &&
  existsb (Js.startsWith n) (allowedPaths pv).

(** A path that [validatePath] has let through: the resolved form of a
    text that it found valid. *)
Definition validatedPath (h : Host) (pv : PathValidator) (n : string) : Prop :=
  exists p, isValid (validatePath h pv (JsString p)) = true /\
            n = resolved h p.

(** A call to the file system that the policy covers: a read, a listing or
    a write of a validated path, or the [mkdir] of the directory part of
    one.  Lines on the console are not calls. *)
Definition permittedCall (h : Host) (pv : PathValidator) (ev : Event) : Prop :=
  match ev with
  | FsReadFile p | FsReaddir p | FsWriteFile p _ =>
      exists n, p = JsString n /\ validatedPath h pv n
  | FsMkdir p =>
      exists n d, validatedPath h pv n /\
                  Path.dirname (JsString n) = inr d /\ p = JsString d
  | _ => True
  end.

(** The same policy with more blocked, or more allowed, entries. *)
Definition withBlocked (pv : PathValidator) (more : list string) : PathValidator :=
  {| allowedPaths := allowedPaths pv;
     blockedPaths := blockedPaths pv ++ more;
     allowedExtensions := allowedExtensions pv |}.

Definition withAllowed (pv : PathValidator) (more : list string) : PathValidator :=
  {| allowedPaths := allowedPaths pv ++ more;
     blockedPaths := blockedPaths pv;
     allowedExtensions := allowedExtensions pv |}.

(** The tools that write: every other name leaves the files alone. *)
Definition writers : list string := ["write_file"; "create_sample_file"].

(** One line of a directory listing. *)
Definition listingLine (item : Dirent) : string :=
  (if dirent_isDirectory item then "📁" else "📄") +:+ " " +:+ dirent_name item.

Definition listingHeader (n : string) : string :=
  "ディレクトリ " +:+ quoted n +:+ " の内容:" +:+ LF +:+ LF.

(** ** The catalogue of tools, as [ListTools] announces it *)

Record ToolProperty : Type := mkToolProperty {
  property_name : string;
  property_type : string;
  property_description : string
}.

Record Tool : Type := mkTool {
  tool_name : string;
  tool_description : string;
  tool_properties : list ToolProperty;
  tool_required : list string
}.

(** The constant [TOOLS] of the source, with its input schemas. *)
Definition TOOLS_catalogue : list Tool :=
  [ {| tool_name := "read_file";
       tool_description :=
         "指定されたファイルの内容を読み込みます（許可されたディレクトリのみ）";
       tool_properties :=
         [ mkToolProperty "filepath" "string" "読み込むファイルのパス" ];
       tool_required := ["filepath"] |};
    {| tool_name := "write_file";
       tool_description :=
         "指定されたファイルにテキストを書き込みます（許可されたディレクトリのみ）";
       tool_properties :=
         [ mkToolProperty "filepath" "string" "書き込むファイルのパス";
           mkToolProperty "content" "string" "書き込む内容" ];
       tool_required := ["filepath"; "content"] |};
    {| tool_name := "list_directory";
       tool_description :=
         "指定されたディレクトリの内容を一覧表示します（許可されたディレクトリのみ）";
       tool_properties :=
         [ mkToolProperty "dirpath" "string" "一覧表示するディレクトリのパス" ];
       tool_required := ["dirpath"] |};
    {| tool_name := "get_system_info";
       tool_description := "システム情報を取得します";
       tool_properties := [];
       tool_required := [] |};
    {| tool_name := "create_sample_file";
       tool_description := "サンプルファイルを作成します（テスト用）";
       tool_properties :=
         [ mkToolProperty "filename" "string"
                          "作成するファイル名（デフォルト: sample.txt）" ];
       tool_required := [] |};
    {| tool_name := "get_allowed_paths";
       tool_description := "アクセス可能なパスの一覧を表示します";
       tool_properties := [];
       tool_required := [] |} ].

(** The handler registered for [ListToolsRequestSchema]. *)
Definition listTools {FS : Type} : Task FS (list Tool) :=
  console_error "ListTools request received";;
  mret TOOLS_catalogue.


(** The prefixes the four tools with a [catch] put in front of what they
    throw on. *)
Definition toolPrefixes : list string :=
  ["ファイルの読み込みに失敗: "; "ファイルの書き込みに失敗: ";
   "ディレクトリの一覧取得に失敗: "; "サンプルファイルの作成に失敗: "].

(** The first character of a text. *)
Definition firstChar (s : string) : option ascii :=
  match s with
  | String c _ => Some c
  | EmptyString => None
  end.

(** The system directories the constructor blocks, as it lists them. *)
Definition systemDirs : list string :=
  ["/etc"; "/bin"; "/sbin"; "/usr/bin"; "/usr/sbin"; "/System"; "/Windows";
   "/Program Files"; "/Program Files (x86)"].

(** The segments of the directory the constructor allows, below the home. *)
Definition areaSegments : list string := ["Documents"; "00_AI_Area"].

(** * Properties *)

(** ** Strings *)

Lemma append_cons (c : ascii) (a b : string) :
  String c a +:+ b = String c (a +:+ b).
Proof. reflexivity. Qed.

Lemma append_nil_l (a : string) : "" +:+ a = a.
Proof. reflexivity. Qed.

Lemma append_assoc (a b c : string) : (a +:+ b) +:+ c = a +:+ (b +:+ c).
Proof.
  induction a as [|x a IH]; [reflexivity |].
  rewrite !append_cons. f_equal. exact IH.
Qed.

Lemma append_nil_r (a : string) : a +:+ "" = a.
Proof.
  induction a as [|x a IH]; [reflexivity |].
  rewrite append_cons. f_equal. exact IH.
Qed.

Lemma startsWith_spec (s pre : string) :
  Js.startsWith s pre = true <-> exists rest, s = pre +:+ rest.
Proof.
  revert s; induction pre as [|c pre IH]; intros s; simpl.
  - split; [intros _; now exists s | reflexivity].
  - destruct s as [|d s].
    + split; [discriminate | intros [rest Hr]; discriminate].
    + destruct (Ascii.eqb c d) eqn:E.
      * apply Ascii.eqb_eq in E; subst d. rewrite IH.
        split; intros [rest Hr]; exists rest.
        -- rewrite append_cons. congruence.
        -- rewrite append_cons in Hr. congruence.
      * apply Ascii.eqb_neq in E.
        split; [discriminate |].
        intros [rest Hr]. rewrite append_cons in Hr. congruence.
Qed.

Lemma startsWith_app (pre rest : string) : Js.startsWith (pre +:+ rest) pre = true.
Proof. apply startsWith_spec; now exists rest. Qed.

Lemma startsWith_refl (s : string) : Js.startsWith s s = true.
Proof. apply startsWith_spec; exists ""; now rewrite append_nil_r. Qed.

Lemma startsWith_trans (s mid pre : string) :
  Js.startsWith s mid = true -> Js.startsWith mid pre = true ->
  Js.startsWith s pre = true.
Proof.
  rewrite !startsWith_spec. intros [r1 ->] [r2 ->].
  exists (r2 +:+ r1). apply append_assoc.
Qed.

(** Component-aligned containment implies the raw prefix test of the code. *)
Lemma componentAligned_startsWith (path root : string) :
  componentAligned path root = true -> Js.startsWith path root = true.
Proof.
  unfold componentAligned. intros Hc. apply orb_true_iff in Hc as [Heq | Hpre].
  - apply String.eqb_eq in Heq; subst. apply startsWith_refl.
  - eapply startsWith_trans; [exact Hpre | apply startsWith_app].
Qed.

Lemma includes_startsWith (s pat : string) :
  Js.startsWith s pat = true -> Js.includes s pat = true.
Proof. intros Hs. destruct s; simpl in *; rewrite Hs; reflexivity. Qed.

Lemma includes_app (before pat after : string) :
  Js.includes (before +:+ pat +:+ after) pat = true.
Proof.
  induction before as [|c before IH].
  - rewrite append_nil_l. apply includes_startsWith, startsWith_app.
  - rewrite append_cons. simpl. rewrite IH. apply orb_true_r.
Qed.


Lemma truthy_string_false (s : string) : Js.truthy_string s = false <-> s = "".
Proof. destruct s; simpl; split; congruence. Qed.

(** ** Splitting and joining at the separator *)

Lemma noSeparator_nil : noSeparator "".
Proof. intros []. Qed.

Lemma noSeparator_cons (c : ascii) (s : string) :
  noSeparator (String c s) <-> c <> "/"%char /\ noSeparator s.
Proof.
  unfold noSeparator; simpl. split.
  - intros Hn. split; [intros -> | intros Hin]; apply Hn; auto.
  - intros [Hc Hs] [Heq | Hin]; [congruence | auto].
Qed.

Lemma split_noSeparator (s : string) : Forall noSeparator (Js.split "/" s).
Proof.
  induction s as [|a s IH]; simpl.
  - repeat constructor. apply noSeparator_nil.
  - destruct (Ascii.eqb a "/") eqn:E.
    + constructor; [apply noSeparator_nil | exact IH].
    + apply Ascii.eqb_neq in E.
      destruct (Js.split "/" s) as [|x t].
      * repeat constructor.
        apply noSeparator_cons; split; [exact E | apply noSeparator_nil].
      * inversion IH; subst. constructor; [| assumption].
        apply noSeparator_cons; split; assumption.
Qed.

Lemma split_segment (s t : string) :
  noSeparator s ->
  Js.split "/" (s +:+ "/" +:+ t) = s :: Js.split "/" t.
Proof.
  induction s as [|a s IH]; intros Hs.
  - reflexivity.
  - apply noSeparator_cons in Hs as [Ha Hs].
    rewrite append_cons. simpl.
    apply Ascii.eqb_neq in Ha. rewrite Ha, (IH Hs). reflexivity.
Qed.

Lemma split_single (s : string) :
  noSeparator s -> Js.split "/" s = [s].
Proof.
  induction s as [|a s IH]; intros Hs.
  - reflexivity.
  - apply noSeparator_cons in Hs as [Ha Hs]. simpl.
    apply Ascii.eqb_neq in Ha. rewrite Ha, (IH Hs). reflexivity.
Qed.

Lemma join_cons2 (sep x y : string) (l : list string) :
  Js.join sep (x :: y :: l) = x +:+ sep +:+ Js.join sep (y :: l).
Proof. reflexivity. Qed.

(** A joined list of segments, closed by a separator, splits back into the
    segments and one empty segment. *)
Lemma split_join (x : string) (l : list string) :
  Forall noSeparator (x :: l) ->
  Js.split "/" (Js.join "/" (x :: l) +:+ "/") = (x :: l) ++ [""].
Proof.
  revert x; induction l as [|y l IH]; intros x Hall.
  - inversion Hall; subst.
    change (Js.join "/" [x] +:+ "/") with (x +:+ "/" +:+ "").
    rewrite (split_segment x "") by assumption. reflexivity.
  - inversion Hall as [|? ? Hx Hrest]; subst.
    rewrite join_cons2, !append_assoc.
    rewrite split_segment by assumption.
    rewrite (IH y Hrest). reflexivity.
Qed.

(** ** Normalization of segments *)

Lemma cleanSegment_eqb (s : string) :
  cleanSegment s ->
  String.eqb s "" = false /\ String.eqb s "." = false /\ String.eqb s ".." = false.
Proof.
  intros (H1 & H2 & H3 & _). repeat split; now apply String.eqb_neq.
Qed.

Lemma cleanSegment_noSeparator (l : list string) :
  Forall cleanSegment l -> Forall noSeparator l.
Proof.
  induction 1 as [|s l (_ & _ & _ & Hs) _ IH]; constructor; assumption.
Qed.

(** Clean segments are kept as they are. *)
Lemma normalizeSegments_clean (aar : bool) (segs more stack : list string) :
  Forall cleanSegment segs ->
  Path.normalizeSegments aar stack (segs ++ more) =
  Path.normalizeSegments aar (rev segs ++ stack) more.
Proof.
  revert stack; induction segs as [|s segs IH]; intros stack Hall.
  - reflexivity.
  - inversion Hall as [|? ? Hs Hrest]; subst.
    destruct (cleanSegment_eqb s Hs) as (E1 & E2 & E3).
    simpl. rewrite E1, E2, E3. simpl.
    rewrite (IH (s :: stack) Hrest). rewrite <- app_assoc. reflexivity.
Qed.

(** Below the root, what normalization keeps is clean. *)
Lemma normalizeSegments_false_clean (segs stack : list string) :
  Forall cleanSegment stack -> Forall noSeparator segs ->
  Forall cleanSegment (Path.normalizeSegments false stack segs).
Proof.
  revert stack; induction segs as [|s segs IH]; intros stack Hstack Hsegs.
  - exact Hstack.
  - inversion Hsegs as [|? ? Hs Hrest]; subst. simpl.
    destruct (String.eqb s "") eqn:E1; simpl; [now apply IH |].
    destruct (String.eqb s ".") eqn:E2; simpl; [now apply IH |].
    destruct (String.eqb s "..") eqn:E3.
    + destruct stack as [|top below]; [now apply IH |].
      destruct (String.eqb top ".."); [now apply IH |].
      apply IH; [| assumption]. now inversion Hstack.
    + apply IH; [| assumption].
      constructor; [| assumption].
      apply String.eqb_neq in E1, E2, E3. repeat split; assumption.
Qed.

(** ** [path.resolve] *)

Ltac throws_simpl :=
  unfold mbind, mret, Throws_mbind, Throws_mret, Throws_bind in *; simpl in *.

(** On a string [path.resolve] returns. *)
Lemma resolve_string (h : Host) (p : string) :
  Path.resolve h [JsString p] = inr (resolved h p).
Proof.
  unfold resolved. destruct (Path.resolve h [JsString p]) as [e|n] eqn:E;
    [exfalso | reflexivity].
  unfold Path.resolve in E. throws_simpl.
  destruct (Js.truthy_string p); [destruct (Path.isAbsolute p) |];
    simpl in E;
    destruct (Js.truthy_string (cwd h)); simpl in E;
    repeat match type of E with
           | context [if ?b then _ else _] => destruct b
           end; discriminate.
Qed.

(** With an absolute input or an absolute working directory the result is
    the root followed by a normalized path. *)
Lemma resolve_absolute (h : Host) (p : string) :
  Path.isAbsolute p = true \/ Path.isAbsolute (cwd h) = true ->
  exists raw, resolved h p = "/" +:+ Path.normalizeString raw false.
Proof.
  intros Habs. unfold resolved, Path.resolve. throws_simpl.
  destruct (Js.truthy_string p) eqn:Tp.
  - destruct (Path.isAbsolute p) eqn:Ap; simpl.
    + eexists; reflexivity.
    + destruct Habs as [Hp | Hc]; [discriminate |].
      assert (Tc : Js.truthy_string (cwd h) = true)
        by (destruct (cwd h); [discriminate | reflexivity]).
      rewrite Tc, Hc. simpl. eexists; reflexivity.
  - destruct Habs as [Hp | Hc].
    + destruct p; discriminate.
    + assert (Tc : Js.truthy_string (cwd h) = true)
        by (destruct (cwd h); [discriminate | reflexivity]).
      simpl. rewrite Tc, Hc. simpl. eexists; reflexivity.
Qed.

Lemma normalizeString_false_clean (raw : string) :
  exists segs, Forall cleanSegment segs /\
               Path.normalizeString raw false = Js.join "/" segs.
Proof.
  exists (rev (Path.normalizeSegments false [] (Js.split "/" raw))).
  split; [| reflexivity].
  apply List.Forall_rev.
  apply normalizeSegments_false_clean; [constructor | apply split_noSeparator].
Qed.

(** A root followed by clean segments resolves to itself. *)
Lemma resolve_clean (h : Host) (segs : list string) :
  Forall cleanSegment segs ->
  Path.resolve h [JsString ("/" +:+ Js.join "/" segs)] =
  inr ("/" +:+ Js.join "/" segs).
Proof.
  intros Hclean. unfold Path.resolve. throws_simpl.
  unfold Path.normalizeString.
  change (("/" +:+ Js.join "/" segs) +:+ "/" +:+ "")
    with (String "/" (Js.join "/" segs +:+ "/")).
  simpl Js.split.
  destruct segs as [|x l].
  - reflexivity.
  - rewrite split_join by (apply cleanSegment_noSeparator; exact Hclean).
    change (Path.normalizeSegments false [] ("" :: (x :: l) ++ [""]))
      with (Path.normalizeSegments false [] ((x :: l) ++ [""])).
    rewrite (normalizeSegments_clean false (x :: l) [""] []) by exact Hclean.
    rewrite app_nil_r.
    change (Path.normalizeSegments false (rev (x :: l)) [""])
      with (rev (x :: l)).
    rewrite rev_involutive. reflexivity.
Qed.

(** [path.resolve] is idempotent on absolute results. *)
Lemma resolve_idempotent (h : Host) (p : string) :
  Path.isAbsolute p = true \/ Path.isAbsolute (cwd h) = true ->
  resolved h (resolved h p) = resolved h p.
Proof.
  intros Habs. destruct (resolve_absolute h p Habs) as [raw Hraw].
  destruct (normalizeString_false_clean raw) as (segs & Hclean & Hjoin).
  rewrite Hraw, Hjoin. unfold resolved at 1.
  rewrite resolve_clean by exact Hclean. reflexivity.
Qed.

(** The examples of Node's documentation, and the working directory for
    an empty input. *)
Example resolve_examples :
  let h := mkHost "/home/myself/node" "/home/myself" "/tmp" "linux" "x64"
                  "6.1.0" "box" 0 0 0 1 "v20.11.0" "" in
  Path.resolve h [JsString "/foo/bar"; JsString "./baz"] = inr "/foo/bar/baz" /\
  Path.resolve h [JsString "/foo/bar"; JsString "/tmp/file/"] = inr "/tmp/file" /\
  Path.resolve h [JsString "wwwroot"; JsString "static_files/png/";
                  JsString "../gif/image.gif"]
  = inr "/home/myself/node/wwwroot/static_files/gif/image.gif" /\
  Path.resolve h [JsString ""] = inr "/home/myself/node" /\
  Path.resolve h [JsString "/a//b/./c/../../.."] = inr "/" /\
  Path.resolve h [JsUndefined] = inl (ERR_INVALID_ARG_TYPE "paths[0]" JsUndefined).
Proof. repeat split. Qed.

(** ** [validatePath] on strings *)

Lemma checkBlocked_find (h : Host) (n : string) (blocked : list string) :
  checkBlocked h n blocked =
  inr (option_map (denied_blocked n) (List.find (hitsBlocked h n) blocked)).
Proof.
  induction blocked as [|b rest IH]; [reflexivity |].
  simpl. rewrite resolve_string. throws_simpl.
  unfold hitsBlocked at 1.
  destruct (Js.startsWith n (resolved h b)); [reflexivity | exact IH].
Qed.

(** [validatePath] on a string, as one expression: the first blocked entry
    that is a prefix of the resolved path denies; otherwise some allowed
    entry has to be a prefix of it. *)
Lemma validatePath_string (h : Host) (pv : PathValidator) (p : string) :
  validatePath h pv (JsString p) =
  match List.find (hitsBlocked h (resolved h p)) (blockedPaths pv) with
  | Some b => denied_blocked (resolved h p) b
  | None =>
      if existsb (Js.startsWith (resolved h p)) (allowedPaths pv)
      then allowed (resolved h p)
      else denied_not_allowed pv (resolved h p)
  end.
Proof.
  unfold validatePath, validatePath_try.
  rewrite resolve_string. throws_simpl.
  rewrite checkBlocked_find.
  destruct (List.find (hitsBlocked h (resolved h p)) (blockedPaths pv));
    simpl; [reflexivity |].
  destruct (existsb _ (allowedPaths pv)); reflexivity.
Qed.

(** [find] returns the first element that passes the test. *)
Lemma find_first {A : Type} (f : A -> bool) (l : list A) (x : A) :
  List.find f l = Some x ->
  exists before after,
    l = before ++ x :: after /\ f x = true /\
    Forall (fun y => f y = false) before.
Proof.
  induction l as [|a l IH]; simpl; [discriminate |].
  destruct (f a) eqn:Fa.
  - intros [= ->]. exists [], l. repeat split; [assumption | constructor].
  - intros Hfind. destruct (IH Hfind) as (before & after & -> & Hx & Hall).
    exists (a :: before), after. repeat split; [assumption |].
    constructor; assumption.
Qed.

Lemma find_In_some {A : Type} (f : A -> bool) (l : list A) (x : A) :
  In x l -> f x = true -> exists y, List.find f l = Some y.
Proof.
  intros Hin Hf. destruct (List.find f l) as [y|] eqn:E; [now exists y |].
  rewrite (List.find_none f l E x Hin) in Hf. discriminate.
Qed.

(** A resolved path that no allowed entry is a prefix of is denied. *)
Lemma validatePath_outside_denied (h : Host) (pv : PathValidator) (p : string) :
  Forall (fun a => Js.startsWith (resolved h p) a = false) (allowedPaths pv) ->
  isValid (validatePath h pv (JsString p)) = false.
Proof.
  intros Hout. rewrite validatePath_string.
  destruct (List.find _ (blockedPaths pv)); [reflexivity |].
  destruct (existsb _ (allowedPaths pv)) eqn:E; [| reflexivity].
  apply existsb_exists in E as (a & Hin & Ha).
  rewrite List.Forall_forall in Hout. rewrite (Hout a Hin) in Ha. discriminate.
Qed.

(** X4.  What the code decides, in full.  The deny-list outcome is returned
    exactly when the resolved form of some blocked entry is a prefix, as a
    string, of the resolved path. *)
Lemma validatePath_deny_list_iff (h : Host) (pv : PathValidator) (p : string) :
  (exists b, validatePath h pv (JsString p) = denied_blocked (resolved h p) b)
  <-> (exists b, In b (blockedPaths pv) /\
                 Js.startsWith (resolved h p) (resolved h b) = true).
Proof.
  rewrite validatePath_string. split.
  - intros [b Hb].
    destruct (List.find _ (blockedPaths pv)) as [b'|] eqn:Hfind.
    + exists b'. apply List.find_some in Hfind. exact Hfind.
    + destruct (existsb _ (allowedPaths pv)); discriminate.
  - intros (b & Hin & Hhit).
    destruct (find_In_some (hitsBlocked h (resolved h p)) _ b Hin Hhit)
      as [b' ->].
    exists b'. reflexivity.
Qed.

(** X5.  A path is allowed exactly when the resolved form of no blocked
    entry is a prefix, as a string, of its resolved form and some allowed
    entry, as it is configured, is. *)
Lemma validatePath_allowed_iff (h : Host) (pv : PathValidator) (p : string) :
  isValid (validatePath h pv (JsString p)) = true
  <-> Forall (fun b => Js.startsWith (resolved h p) (resolved h b) = false)
             (blockedPaths pv) /\
      exists a, In a (allowedPaths pv) /\ Js.startsWith (resolved h p) a = true.
Proof.
  rewrite validatePath_string. split.
  - destruct (List.find _ (blockedPaths pv)) as [b|] eqn:Hfind;
      [discriminate |].
    destruct (existsb _ (allowedPaths pv)) eqn:Hex; [| discriminate].
    intros _. split.
    + apply List.Forall_forall. intros b Hb.
      apply (List.find_none _ _ Hfind b Hb).
    + apply existsb_exists in Hex. exact Hex.
  - intros [Hnone (a & Hin & Ha)].
    destruct (List.find _ (blockedPaths pv)) as [b|] eqn:Hfind.
    + apply List.find_some in Hfind as [Hb Hhit].
      rewrite List.Forall_forall in Hnone.
      unfold hitsBlocked in Hhit. rewrite (Hnone b Hb) in Hhit. discriminate.
    + assert (Hex : existsb (Js.startsWith (resolved h p)) (allowedPaths pv)
                    = true) by (apply existsb_exists; eauto).
      rewrite Hex. reflexivity.
Qed.

(** A valid result carries the resolved path. *)
Lemma validatePath_valid (h : Host) (pv : PathValidator) (p : string) :
  isValid (validatePath h pv (JsString p)) = true ->
  validatePath h pv (JsString p) = allowed (resolved h p).
Proof.
  rewrite validatePath_string.
  destruct (List.find _ (blockedPaths pv)); [discriminate |].
  destruct (existsb _ (allowedPaths pv)); [reflexivity | discriminate].
Qed.

(** An invalid result always has an error message. *)
Lemma validatePath_invalid_error (h : Host) (pv : PathValidator) (v : JsValue) :
  isValid (validatePath h pv v) = false ->
  exists msg, error (validatePath h pv v) = Some msg.
Proof.
  unfold validatePath, validatePath_try. throws_simpl.
  destruct (Path.resolve h [v]) as [e|n]; simpl; [eauto |].
  rewrite checkBlocked_find. simpl.
  destruct (List.find _ (blockedPaths pv)); simpl; [eauto |].
  destruct (existsb _ (allowedPaths pv)); simpl; [discriminate | eauto].
Qed.

Example installed_by_constructor :
  PathValidator_new Example.host = inr Example.installed.
Proof. reflexivity. Qed.

(** The scenario of the specification: a path under the blocked directory is
    denied, a path under the allowed directory is allowed and normalized, a
    path that climbs out of the sandbox is denied. *)
Example scenario_sandbox :
  validatePath Example.host Example.sandbox (JsString "/sandbox/.secret/x.txt")
  = denied_blocked "/sandbox/.secret/x.txt" "/sandbox/.secret" /\
  validatePath Example.host Example.sandbox (JsString "/sandbox/a.txt")
  = allowed "/sandbox/a.txt" /\
  validatePath Example.host Example.sandbox (JsString "/sandbox/../etc/passwd")
  = denied_not_allowed Example.sandbox "/etc/passwd".
Proof. repeat split. Qed.

(** C1, evaluated on the code.  The specification wants a path denied when
    it neither equals an allowed root nor starts with one followed by a
    separator.  [validatePath] tests a plain [startsWith]: [/sandboxed] is
    accepted against the allowed root [/sandbox], and with the installed
    policy so is a sibling of the allowed directory, although neither is
    component-aligned under any allowed root. *)
Theorem validatePath_accepts_sibling_of_allowed_root :
  (resolved Example.host "/sandboxed" = "/sandboxed" /\
   Forall (fun a => componentAligned "/sandboxed" a = false)
          (allowedPaths Example.sandbox) /\
   validatePath Example.host Example.sandbox (JsString "/sandboxed")
   = allowed "/sandboxed") /\
  (let p := "/home/myself/Documents/00_AI_Area_old/notes.txt" in
   resolved Example.host p = p /\
   Forall (fun a => componentAligned p a = false)
          (allowedPaths Example.installed) /\
   validatePath Example.host Example.installed (JsString p) = allowed p).
Proof. repeat split; repeat constructor. Qed.

(** C2, evaluated on the code.  The specification wants the deny-list
    outcome exactly for the paths that equal a blocked root or start with
    it followed by a separator.  The deny loop tests a plain [startsWith]:
    with the installed policy [/etcetera] gets the deny-list outcome naming
    [/etc], and in the sandbox scenario [/sandbox/.secrets.txt], a file of
    the allowed directory, gets it naming [/sandbox/.secret]; neither path
    is component-aligned under any blocked root. *)
Theorem validatePath_blocks_sibling_of_blocked_root :
  (resolved Example.host "/etcetera" = "/etcetera" /\
   Forall (fun b => componentAligned "/etcetera" (resolved Example.host b) = false)
          (blockedPaths Example.installed) /\
   validatePath Example.host Example.installed (JsString "/etcetera")
   = denied_blocked "/etcetera" "/etc") /\
  (let p := "/sandbox/.secrets.txt" in
   resolved Example.host p = p /\
   Forall (fun b => componentAligned p (resolved Example.host b) = false)
          (blockedPaths Example.sandbox) /\
   componentAligned p "/sandbox" = true /\
   validatePath Example.host Example.sandbox (JsString p)
   = denied_blocked p "/sandbox/.secret").
Proof. repeat split; repeat constructor. Qed.

(** C3: deny precedence.  For every input whose resolved path lies under a
    blocked root (equal to it, or below it at a separator), [validatePath]
    denies, whatever the allow-list holds, and so also when the path lies
    under an allowed root.  The result names the first entry of
    [blockedPaths], in order, that the deny loop matches: the loop returns
    there, before the allow-list is looked at. *)
Theorem deny_precedence (h : Host) (pv : PathValidator) (p b : string) :
  In b (blockedPaths pv) ->
  componentAligned (resolved h p) (resolved h b) = true ->
  exists first before after,
    validatePath h pv (JsString p) = denied_blocked (resolved h p) first /\
    isValid (validatePath h pv (JsString p)) = false /\
    blockedPaths pv = before ++ first :: after /\
    hitsBlocked h (resolved h p) first = true /\
    Forall (fun x => hitsBlocked h (resolved h p) x = false) before.
Proof.
  intros Hin Hunder. apply componentAligned_startsWith in Hunder.
  destruct (find_In_some (hitsBlocked h (resolved h p)) _ b Hin Hunder)
    as [first Hfind].
  destruct (find_first _ _ _ Hfind) as (before & after & Hsplit & Hhit & Hnone).
  exists first, before, after.
  rewrite validatePath_string, Hfind. repeat split; assumption.
Qed.

(** The path [/sandbox/.secret/x.txt] lies under the allowed root [/sandbox]
    and under the blocked root [/sandbox/.secret]: it is denied. *)
Lemma deny_precedence_witness :
  existsb (Js.startsWith (resolved Example.host "/sandbox/.secret/x.txt"))
          (allowedPaths Example.sandbox) = true /\
  exists first before after,
    validatePath Example.host Example.sandbox (JsString "/sandbox/.secret/x.txt")
    = denied_blocked (resolved Example.host "/sandbox/.secret/x.txt") first /\
    isValid (validatePath Example.host Example.sandbox
                          (JsString "/sandbox/.secret/x.txt")) = false /\
    blockedPaths Example.sandbox = before ++ first :: after /\
    hitsBlocked Example.host (resolved Example.host "/sandbox/.secret/x.txt")
                first = true /\
    Forall (fun x => hitsBlocked Example.host
                       (resolved Example.host "/sandbox/.secret/x.txt") x = false)
           before.
Proof.
  split; [reflexivity |].
  apply (deny_precedence Example.host Example.sandbox
           "/sandbox/.secret/x.txt" "/sandbox/.secret");
    [simpl; auto | reflexivity].
Defined.

(** C4: idempotence.  The working directory of a process is an absolute
    path.  If [validatePath] allows an input, with normalized path [n], then
    validating [n] gives the same allowed result, with the same [n]. *)
Theorem validatePath_idempotent (h : Host) (pv : PathValidator) (p : string) :
  Path.isAbsolute (cwd h) = true ->
  isValid (validatePath h pv (JsString p)) = true ->
  exists n,
    validatePath h pv (JsString p) = allowed n /\
    validatePath h pv (JsString n) = allowed n.
Proof.
  intros Hcwd Hvalid. exists (resolved h p).
  pose proof (validatePath_valid h pv p Hvalid) as Hres.
  split; [exact Hres |].
  rewrite validatePath_string in Hres |- *.
  rewrite (resolve_idempotent h p) by (right; exact Hcwd).
  exact Hres.
Qed.

Lemma validatePath_idempotent_witness :
  exists n,
    validatePath Example.host Example.sandbox (JsString "docs/../a.txt")
    = allowed n /\
    validatePath Example.host Example.sandbox (JsString n) = allowed n.
Proof.
  apply (validatePath_idempotent Example.host Example.sandbox "docs/../a.txt");
    reflexivity.
Defined.

(** The hypothesis of C4 is about the host, not about the input: in a model
    host with a relative working directory, resolving twice prefixes the
    directory twice. *)
Remark idempotence_needs_absolute_cwd :
  let h := mkHost "work" "/home/myself" "/tmp" "linux" "x64" "6.1.0" "box"
                  0 0 0 1 "v20.11.0" "" in
  let pv := {| allowedPaths := ["work"]; blockedPaths := [];
               allowedExtensions := [] |} in
  validatePath h pv (JsString "a.txt") = allowed "work/a.txt" /\
  validatePath h pv (JsString "work/a.txt") = allowed "work/work/a.txt".
Proof. split; reflexivity. Qed.

(** ** [validateFileExtension] *)

Lemma extname_string (p : string) :
  Path.extname (JsString p) = inr (extension p).
Proof.
  unfold extension, Path.extname. throws_simpl.
  destruct (Path.lastDot (Path.lastSegment p)) as [[[|i] suffix]|];
    try reflexivity.
  destruct (String.eqb (Path.lastSegment p) ".."); reflexivity.
Qed.

(** Decoding, mapping and encoding each keep a non-empty text non-empty. *)
Lemma decode_nil (s : string) : Unicode.decode s = [] -> s = "".
Proof.
  destruct s as [|c0 s0]; [reflexivity |]. cbn [Unicode.decode]. cbv zeta.
  repeat match goal with
         | |- context [if ?b then _ else _] => destruct b
         | |- context [match ?s with EmptyString => _ | String _ _ => _ end] =>
             destruct s
         end; discriminate.
Qed.

Lemma lowercase_nil (before l : list Unicode.Item) :
  Unicode.lowercase before l = [] -> l = [].
Proof.
  destruct l as [|[cp|c] l]; [reflexivity | |];
    cbn [Unicode.lowercase]; cbv zeta.
  - repeat match goal with
           | |- context [if ?b then _ else _] => destruct b
           end; discriminate.
  - discriminate.
Qed.

Lemma encode_nil (l : list Unicode.Item) : Unicode.encode l = "" -> l = [].
Proof.
  destruct l as [|[cp|c] l]; [reflexivity | |];
    unfold Unicode.encode; cbn [fold_right Unicode.encode_item].
  - repeat match goal with
           | |- context [if ?b then _ else _] => destruct b
           end; discriminate.
  - discriminate.
Qed.

Lemma toLowerCase_empty (s : string) : Js.toLowerCase s = "" <-> s = "".
Proof.
  split.
  - intros E. apply decode_nil, (lowercase_nil []), encode_nil, E.
  - intros ->. reflexivity.
Qed.




(** Letters outside ASCII are folded too, a capital sigma by its place in
    the word, and text without case is kept. *)
Example toLowerCase_examples :
  map Js.toLowerCase [".TXT"; ".Ä"; ".K"; ".ΟΔΟΣ"; ".Σ"; ".İ"; ".文書"]
  = [".txt"; ".ä"; ".k"; ".οδος"; ".σ"; ".i̇"; ".文書"].
Proof. vm_compute. reflexivity. Qed.

(** Every policy the constructor builds has lowercase extensions. *)
Lemma constructed_extensions_lowercase (h : Host) (pv : PathValidator) :
  PathValidator_new h = inr pv ->
  Forall (fun e => Js.toLowerCase e = e) (allowedExtensions pv).
Proof.
  unfold PathValidator_new. throws_simpl.
  repeat match goal with
         | |- context [Path.resolve h ?l] => destruct (Path.resolve h l)
         end; try discriminate.
  intros [= <-]. simpl. repeat constructor.
Qed.

Lemma split_not_nil (c : ascii) (s : string) : Js.split c s <> [].
Proof.
  destruct s as [|a s]; simpl; [discriminate |].
  destruct (Ascii.eqb a c); [discriminate |].
  destruct (Js.split c s); discriminate.
Qed.

(** Splitting distributes over a separator. *)
Lemma split_app_separator (a b : string) :
  Js.split "/" (a +:+ "/" +:+ b) = Js.split "/" a ++ Js.split "/" b.
Proof.
  induction a as [|c a IH]; [reflexivity |].
  rewrite append_cons. simpl. rewrite IH.
  destruct (Ascii.eqb c "/"); [reflexivity |].
  destruct (Js.split "/" a) as [|x t] eqn:E; [| reflexivity].
  exfalso. exact (split_not_nil _ _ E).
Qed.

Lemma lastSegment_file (dir base : string) :
  base <> "" -> noSeparator base ->
  Path.lastSegment (dir +:+ "/" +:+ base) = base.
Proof.
  intros Hne Hsep. unfold Path.lastSegment.
  rewrite split_app_separator, (split_single base Hsep), filter_app.
  rewrite (filter_cons_True _ base []) by (destruct base; [contradiction | reflexivity]).
  rewrite filter_nil. apply List.last_last.
Qed.

Lemma lastDot_noDot (e : string) : noDot e -> Path.lastDot e = None.
Proof.
  induction e as [|c e IH]; intros Hdot; [reflexivity |].
  simpl. rewrite IH by (intros Hin; apply Hdot; right; exact Hin).
  destruct (Ascii.eqb c ".") eqn:E; [| reflexivity].
  apply Ascii.eqb_eq in E. subst c. exfalso. apply Hdot. left. reflexivity.
Qed.

Lemma lastDot_stem (stem e : string) :
  noDot e ->
  Path.lastDot (stem +:+ "." +:+ e) = Some (String.length stem, "." +:+ e).
Proof.
  intros Hdot. induction stem as [|c stem IH].
  - change ("" +:+ "." +:+ e) with (String "." e). simpl.
    rewrite (lastDot_noDot e Hdot). reflexivity.
  - rewrite append_cons. simpl. rewrite IH. reflexivity.
Qed.

Lemma noSeparator_app (a b : string) :
  noSeparator a -> noSeparator b -> noSeparator (a +:+ b).
Proof.
  intros Ha Hb. induction a as [|c a IH]; [exact Hb |].
  rewrite append_cons. apply noSeparator_cons in Ha as [Hc Ha].
  apply noSeparator_cons. split; [exact Hc | exact (IH Ha)].
Qed.

Lemma noSeparator_dot : noSeparator ".".
Proof. intros [Hin | []]. discriminate Hin. Qed.

(** The extension of [dir/stem.e] is [.e]. *)
Lemma extension_named (dir stem e : string) :
  stem <> "" -> noSeparator stem -> noSeparator e -> noDot e ->
  ~ (stem = "." /\ e = "") ->
  extension (dir +:+ "/" +:+ stem +:+ "." +:+ e) = "." +:+ e.
Proof.
  intros Hstem Hsep Hsepe Hdot Hdots.
  unfold extension, Path.extname. throws_simpl.
  assert (Hbase : Path.lastSegment (dir +:+ "/" +:+ stem +:+ "." +:+ e)
                  = stem +:+ "." +:+ e).
  { apply lastSegment_file.
    - destruct stem; [contradiction | discriminate].
    - apply noSeparator_app; [exact Hsep |].
      apply (noSeparator_app "." e noSeparator_dot Hsepe). }
  rewrite Hbase, (lastDot_stem stem e Hdot).
  destruct stem as [|c stem]; [contradiction |]. cbn [String.length].
  destruct (String.eqb_spec (String c stem +:+ "." +:+ e) "..") as [Heq | _];
    [| reflexivity].
  exfalso. rewrite append_cons in Heq. injection Heq as -> Hrest.
  destruct stem as [|c2 stem].
  - change ("" +:+ "." +:+ e) with (String "." e) in Hrest.
    injection Hrest as ->. apply Hdots. split; reflexivity.
  - rewrite append_cons in Hrest. injection Hrest as _ Hrest.
    destruct stem; discriminate Hrest.
Qed.

(** A last segment without a dot, or whose only dot is its first character,
    has no extension. *)
Lemma extension_none (dir base : string) :
  noSeparator base -> noDot base ->
  (base <> "" -> extension (dir +:+ "/" +:+ base) = "") /\
  extension (dir +:+ "/" +:+ "." +:+ base) = "".
Proof.
  intros Hsep Hdot. unfold extension, Path.extname. throws_simpl. split.
  - intros Hne. rewrite lastSegment_file by assumption.
    rewrite (lastDot_noDot _ Hdot). reflexivity.
  - rewrite (lastSegment_file dir ("." +:+ base));
      [| discriminate | apply (noSeparator_app "." base noSeparator_dot Hsep)].
    change ("." +:+ base) with ("" +:+ "." +:+ base).
    rewrite (lastDot_stem "" base Hdot). reflexivity.
Qed.

(** Extensions of the examples in Node's documentation. *)
Example extname_examples :
  map extension ["index.html"; "index.coffee.md"; "index."; "index";
                 ".index"; ".index.md"; "/a.b/c"; "/a/b.TXT/"; ".."]
  = [".html"; ".md"; "."; ""; ""; ".md"; ""; ".TXT"; ""].
Proof. reflexivity. Qed.

(** *** The final segment and its extension *)









(** The lowercase of an extension is not empty. *)
Lemma lowercase_extension_truthy (e : string) :
  Js.truthy_string (Js.toLowerCase ("." +:+ e)) = true.
Proof.
  destruct (Js.truthy_string (Js.toLowerCase ("." +:+ e))) eqn:T;
    [reflexivity |].
  apply (proj1 (truthy_string_false _)) in T.
  apply (proj1 (toLowerCase_empty _)) in T.
  change ("." +:+ e) with (String "." e) in T. discriminate T.
Qed.



Example validateFileExtension_rejects_exe :
  validateFileExtension Example.installed (JsString "/sandbox/run.EXE")
  = inr {| ext_isValid := false;
           ext_error := Some (msg_bad_extension ".exe"
                                (allowedExtensions Example.installed)) |}.
Proof. reflexivity. Qed.

(** ** The handler *)

Ltac task_unfold :=
  unfold try_catch, throw_if, throw, liftThrows, console_error, emit,
         readFile_utf8, writeFile_utf8, mkdir_recursive, readdir_withFileTypes,
         mbind, mret, Task_mbind, Task_mret, Throws_mbind, Throws_mret,
         Throws_bind, after in *.

Section Handler.
Context {FS : Type} `{FileSystem FS}.
Variable h : Host.
Variable pv : PathValidator.

(** The handler with arguments: the [switch] runs after the log line, and
    whatever it throws becomes an error result. *)
Lemma callTool_dispatch (params : CallToolParams)
      (args : gmap string JsValue) (w : World FS) :
  arguments params = Some args ->
  callTool h pv params w =
  match dispatch h pv (name params) args (after w [received params]) with
  | (w', inr result) => (w', inr result)
  | (w', inl e) =>
      (after w' [ConsoleErrorExn "Tool execution error:" e],
       inr (errorResult e))
  end.
Proof.
  intros Hargs. unfold callTool. rewrite Hargs. task_unfold. simpl.
  destruct (dispatch h pv (name params) args _) as [w' [e|r]]; reflexivity.
Qed.

(** The handler without arguments. *)
Lemma callTool_no_arguments (params : CallToolParams) (w : World FS) :
  arguments params = None ->
  callTool h pv params w =
  (after w [received params],
   inr (textResult "Error: No arguments provided" true)).
Proof. intros Hargs. unfold callTool. rewrite Hargs. reflexivity. Qed.




(** A name outside the catalogue reaches the [default] of the [switch]. *)
Lemma dispatch_unknown (toolName : string) (args : gmap string JsValue) :
  ~ In toolName TOOLS ->
  dispatch h pv toolName args =
  throw (new_Error ("Unknown tool: " +:+ toolName)).
Proof.
  intros Hnot. unfold dispatch.
  repeat match goal with
         | |- context [String.eqb toolName ?t] =>
             destruct (String.eqb_spec toolName t) as [-> | _];
             [exfalso; apply Hnot; unfold TOOLS; simpl; tauto |]
         end.
  reflexivity.
Qed.

End Handler.

Lemma includes_suffix (before pat : string) :
  Js.includes (before +:+ pat) pat = true.
Proof.
  rewrite <- (append_nil_r pat) at 1. apply includes_app.
Qed.

Lemma names_textResult (t pat : string) (err : bool) :
  Js.includes t pat = true -> names (textResult t err) pat = true.
Proof. intros Hinc. unfold names; simpl. rewrite Hinc. reflexivity. Qed.

(** C8 as stated fails: a request that names an unknown tool and carries no
    [arguments] is answered by the guard that precedes the [switch].  The
    answer is an error result, but its text is about the missing arguments
    and does not name the tool. *)
Lemma unknown_tool_without_arguments_is_not_named :
  let params := {| name := "delete_everything"; arguments := None |} in
  ~ In (name params) TOOLS /\
  exists w' result,
    callTool Example.host Example.sandbox params Example.world = (w', inr result) /\
    result = textResult "Error: No arguments provided" true /\
    names result (name params) = false.
Proof.
  split.
  - unfold TOOLS; simpl. intros Hin.
    repeat (destruct Hin as [Hin | Hin]; [discriminate |]). exact Hin.
  - eexists _, _. split; [reflexivity |]. split; reflexivity.
Qed.

(** C8, amended.  On every request the handler returns a result and throws
    nothing.  When the request carries arguments, any exception thrown
    inside the operation is caught and turned into an error result with the
    exception's message.  For a name outside the six tools the result is an
    error result and the file system is untouched: with arguments it is
    [Error: Unknown tool: <name>], naming the tool; without arguments it is
    [Error: No arguments provided]. *)
Theorem callTool_never_throws {FS : Type} `{FileSystem FS}
        (h : Host) (pv : PathValidator) (params : CallToolParams) (w : World FS) :
  exists w' result,
    callTool h pv params w = (w', inr result) /\
    (forall args w1 e,
        arguments params = Some args ->
        dispatch h pv (name params) args (after w [received params]) = (w1, inl e) ->
        result = errorResult e /\ isError result = true) /\
    (~ In (name params) TOOLS ->
     isError result = true /\ files w' = files w /\
     match arguments params with
     | Some _ =>
         result = textResult ("Error: Unknown tool: " +:+ name params) true /\
         names result (name params) = true
     | None => result = textResult "Error: No arguments provided" true
     end).
Proof.
  destruct (arguments params) as [args|] eqn:Hargs.
  - rewrite (callTool_dispatch h pv params args w Hargs).
    destruct (dispatch h pv (name params) args (after w [received params]))
      as [w1 [e|r]] eqn:Hd.
    + eexists _, _. split; [reflexivity |]. split.
      * intros args' w1' e' [= <-] Hd'. rewrite Hd in Hd'.
        injection Hd' as _ <-. split; reflexivity.
      * intros Hnot. rewrite (dispatch_unknown h pv _ args Hnot) in Hd.
        unfold throw in Hd. injection Hd as <- <-.
        split; [reflexivity |]. split; [reflexivity |].
        split; [reflexivity |].
        change (names (textResult ("Error: Unknown tool: " +:+ name params) true)
                      (name params) = true).
        apply names_textResult, includes_suffix.
    + eexists _, _. split; [reflexivity |]. split.
      * intros args' w1' e' [= <-] Hd'. rewrite Hd in Hd'. discriminate.
      * intros Hnot. rewrite (dispatch_unknown h pv _ args Hnot) in Hd.
        discriminate.
  - rewrite (callTool_no_arguments h pv params w Hargs).
    eexists _, _. split; [reflexivity |]. split.
    + intros args w1 e [=].
    + intros _. repeat split.
Qed.

(** An unknown tool called with an (empty) arguments object is named in the
    error result. *)
Lemma callTool_never_throws_witness :
  exists w' result,
    callTool Example.host Example.sandbox (Example.request "bogus" [])
             Example.world = (w', inr result) /\
    result = textResult "Error: Unknown tool: bogus" true /\
    names result "bogus" = true.
Proof.
  destruct (callTool_never_throws Example.host Example.sandbox
              (Example.request "bogus" []) Example.world)
    as (w' & result & Hcall & _ & Hunknown).
  exists w', result. split; [exact Hcall |].
  apply Hunknown. unfold TOOLS; simpl. intros Hin.
  repeat (destruct Hin as [Hin | Hin]; [discriminate |]). exact Hin.
Defined.

(** ** The tools, step by step *)

Lemma fsCalls_app (t u : list Event) : fsCalls (t ++ u) = fsCalls t ++ fsCalls u.
Proof. apply List.filter_app. Qed.

Lemma fsCalls_console (w : list Event) (t : list Event) :
  forallb (fun ev => negb (is_fs_call ev)) t = true ->
  fsCalls (w ++ t) = fsCalls w.
Proof.
  intros Hall. rewrite fsCalls_app.
  assert (Hnil : fsCalls t = []).
  { induction t as [|ev t IH]; [reflexivity |].
    simpl in Hall. apply andb_true_iff in Hall as [Hev Ht].
    unfold fsCalls; simpl. destruct (is_fs_call ev); [discriminate |].
    apply IH, Ht. }
  rewrite Hnil. apply app_nil_r.
Qed.

Section ToolSteps.
Context {FS : Type} `{FileSystem FS}.
Variable h : Host.
Variable pv : PathValidator.

(** [readFile]: the path, then the extension of the normalized path, then
    the read; whatever fails is thrown on with the tool's prefix. *)
Lemma readFile_steps (filepath : JsValue) (w : World FS) :
  readFile h pv filepath w =
  let v := validatePath h pv filepath in
  let failed e := (w, inl (rethrown "ファイルの読み込みに失敗: " e)) in
  if negb (isValid v) then failed (new_Error_opt (error v))
  else
    match validateFileExtension pv (normalizedPath v) with
    | inl e => failed e
    | inr ext =>
        if negb (ext_isValid ext) then failed (new_Error_opt (ext_error ext))
        else
          let w1 :=
            after (after w [ConsoleError
                              ("Reading file: " +:+ js_show (normalizedPath v))])
                  [FsReadFile (normalizedPath v)] in
          match fs_readFile (normalizedPath v) (files w) with
          | inl e => (w1, inl (rethrown "ファイルの読み込みに失敗: " e))
          | inr fileContent =>
              (w1, inr (textResult
                          ("ファイル " +:+ quoted (js_show (normalizedPath v))
                           +:+ " の内容:" +:+ LF +:+ LF +:+ fileContent)
                          false))
          end
    end.
Proof.
  unfold readFile. task_unfold. simpl.
  destruct (isValid (validatePath h pv filepath)); simpl; [| reflexivity].
  destruct (validateFileExtension pv _) as [e|[[|] msg]]; simpl;
    try reflexivity.
  destruct (fs_readFile _ (files w)); reflexivity.
Qed.

(** [writeFile]: both validations come before the first call to the file
    system. *)
Lemma writeFile_steps (filepath fileContent : JsValue) (w : World FS) :
  writeFile h pv filepath fileContent w =
  let v := validatePath h pv filepath in
  let failed w' e := (w', inl (rethrown "ファイルの書き込みに失敗: " e)) in
  if negb (isValid v) then failed w (new_Error_opt (error v))
  else
    match validateFileExtension pv (normalizedPath v) with
    | inl e => failed w e
    | inr ext =>
        if negb (ext_isValid ext)
        then failed w (new_Error_opt (ext_error ext))
        else
          let w1 :=
            after w [ConsoleError
                       ("Writing file: " +:+ js_show (normalizedPath v))] in
          match Path.dirname (normalizedPath v) with
          | inl e => failed w1 e
          | inr dir =>
              match mkdir_recursive (JsString dir) w1 with
              | (w2, inl e) => failed w2 e
              | (w2, inr _) =>
                  match writeFile_utf8 (normalizedPath v) fileContent w2 with
                  | (w3, inl e) => failed w3 e
                  | (w3, inr _) =>
                      (w3, inr (textResult
                                  ("ファイル " +:+
                                   quoted (js_show (normalizedPath v))
                                   +:+ " に正常に書き込みました")
                                  false))
                  end
              end
          end
    end.
Proof.
  unfold writeFile. task_unfold. simpl.
  destruct (isValid (validatePath h pv filepath)); simpl; [| reflexivity].
  destruct (validateFileExtension pv _) as [e|[[|] msg]]; simpl;
    try reflexivity.
  destruct (Path.dirname _) as [e|dir]; simpl; [reflexivity |].
  destruct (fs_mkdir_recursive _ _) as [fs1 [e|[]]]; simpl; [reflexivity |].
  destruct (fs_writeFile _ _ _) as [fs2 [e|[]]]; reflexivity.
Qed.

End ToolSteps.

(** ** Texts that contain a text *)

Lemma includes_spec (s pat : string) :
  Js.includes s pat = true <-> exists a b, s = a +:+ pat +:+ b.
Proof.
  split.
  - induction s as [|c s IH]; simpl.
    + rewrite orb_false_r. intros Hs. apply startsWith_spec in Hs as [rest ->].
      exists "", rest. reflexivity.
    + intros Hs. apply orb_true_iff in Hs as [Hs | Hs].
      * apply startsWith_spec in Hs as [rest ->]. exists "", rest. reflexivity.
      * destruct (IH Hs) as (a & b & ->). exists (String c a), b. reflexivity.
  - intros (a & b & ->). apply includes_app.
Qed.

Lemma includes_inside (x y z pat : string) :
  Js.includes y pat = true -> Js.includes (x +:+ y +:+ z) pat = true.
Proof.
  intros Hy. apply includes_spec in Hy as (a & b & ->).
  apply includes_spec. exists (x +:+ a), (b +:+ z).
  rewrite !append_assoc. reflexivity.
Qed.

Lemma includes_join (sep : string) (l : list string) (item pat : string) :
  In item l -> Js.includes item pat = true ->
  Js.includes (Js.join sep l) pat = true.
Proof.
  intros Hin Hitem. induction l as [|x l IH]; [contradiction |].
  destruct l as [|y l].
  - destruct Hin as [-> | []]. exact Hitem.
  - rewrite join_cons2. destruct Hin as [Hx | Hin].
    + subst x.
      change (Js.includes ("" +:+ item +:+ (sep +:+ Js.join sep (y :: l))) pat
              = true).
      apply includes_inside. exact Hitem.
    + rewrite <- (append_nil_r (Js.join sep (y :: l))).
      rewrite <- append_assoc. apply includes_inside. apply IH. exact Hin.
Qed.




(** ** The text of an error *)

Lemma exn_toString_new_Error (msg : string) :
  msg <> "" -> exn_toString (new_Error msg) = "Error: " +:+ msg.
Proof. intros Hne. destruct msg; [contradiction | reflexivity]. Qed.









(** A denied [writeFile] throws in the world it was started in. *)
Lemma writeFile_denied {FS : Type} `{FileSystem FS}
      (h : Host) (pv : PathValidator) (filepath fileContent : JsValue) :
  isValid (validatePath h pv filepath) = false \/
  (exists ext,
      validateFileExtension pv (normalizedPath (validatePath h pv filepath))
      = inr ext /\ ext_isValid ext = false) ->
  exists e, forall w : World FS,
      writeFile h pv filepath fileContent w = (w, inl e).
Proof.
  intros Hdenied.
  destruct (isValid (validatePath h pv filepath)) eqn:Hv.
  - destruct Hdenied as [Hbad | (ext & Hext & Hbad)]; [discriminate |].
    exists (rethrown "ファイルの書き込みに失敗: " (new_Error_opt (ext_error ext))).
    intros w. rewrite writeFile_steps. cbv zeta.
    rewrite Hv, Hext, Hbad. reflexivity.
  - exists (rethrown "ファイルの書き込みに失敗: "
                     (new_Error_opt (error (validatePath h pv filepath)))).
    intros w. rewrite writeFile_steps. cbv zeta. rewrite Hv. reflexivity.
Qed.

(** C10.  If the path validation or the extension validation of
    [write_file] fails, the operation ends in an error result and the file
    system is as it was: no call to the file system is made, so no parent
    directory is created and nothing is written.  Both validations precede
    [mkdir] and [writeFile] in the tool. *)
Theorem write_file_denied_changes_nothing {FS : Type} `{FileSystem FS}
        (h : Host) (pv : PathValidator) (args : gmap string JsValue)
        (w : World FS) :
  let params := {| name := "write_file"; arguments := Some args |} in
  let v := validatePath h pv (member args "filepath") in
  isValid v = false \/
  (exists ext, validateFileExtension pv (normalizedPath v) = inr ext /\
               ext_isValid ext = false) ->
  (exists e,
      writeFile h pv (member args "filepath") (member args "content") w
      = (w, inl e)) /\
  exists w' result,
    callTool h pv params w = (w', inr result) /\
    isError result = true /\
    files w' = files w /\
    fsCalls (trace w') = fsCalls (trace w).
Proof.
  intros params v Hdenied.
  destruct (writeFile_denied h pv (member args "filepath")
              (member args "content") Hdenied) as [e Hwrite].
  split; [exists e; apply Hwrite |].
  rewrite (callTool_dispatch h pv params args w eq_refl).
  change (dispatch h pv (name params) args)
    with (writeFile h pv (member args "filepath") (member args "content")).
  rewrite Hwrite. eexists _, _. split; [reflexivity |].
  split; [reflexivity |]. split; [reflexivity |].
  simpl. rewrite <- app_assoc. apply fsCalls_console. reflexivity.
Qed.

(** [run.exe] has an extension outside the allowed ones: the directory
    [/sandbox/new] is not created and nothing is written. *)
Lemma write_file_denied_changes_nothing_witness :
  exists w' result,
    callTool Example.host Example.sandbox
             (Example.request "write_file"
                [("filepath", JsString "/sandbox/new/run.exe");
                 ("content", JsString "payload")])
             Example.world = (w', inr result) /\
    isError result = true /\
    files w' = files Example.world /\
    fsCalls (trace w') = fsCalls (trace Example.world).
Proof.
  apply (write_file_denied_changes_nothing Example.host Example.sandbox
           (list_to_map [("filepath", JsString "/sandbox/new/run.exe");
                         ("content", JsString "payload")])
           Example.world).
  right. eexists. split; reflexivity.
Defined.

Example write_file_path_denied :
  exists w' result,
    callTool Example.host Example.sandbox
             (Example.request "write_file"
                [("filepath", JsString "/etc/passwd");
                 ("content", JsString "payload")])
             Example.world = (w', inr result) /\
    isError result = true /\ files w' = files Example.world.
Proof. eexists _, _. repeat split. Qed.

(** An allowed write goes through [mkdir] and [writeFile], and the file can
    be read back. *)
Example write_then_read :
  exists w' results,
    serve Example.host Example.sandbox
          [Example.request "write_file"
             [("filepath", JsString "notes/today.md");
              ("content", JsString "remember")];
           Example.request "read_file"
             [("filepath", JsString "/sandbox/work/notes/today.md")]]
          Example.world = (w', results, None) /\
    map isError results = [false; false] /\
    files w' !! "/sandbox/work/notes/today.md" = Some (MemFS.File "remember") /\
    fsCalls (trace w') =
    [FsMkdir (JsString "/sandbox/work/notes");
     FsWriteFile (JsString "/sandbox/work/notes/today.md") (JsString "remember");
     FsReadFile (JsString "/sandbox/work/notes/today.md")].
Proof. eexists _, _. repeat split. Qed.


(** ** [get_system_info] *)



(** *** The text of the answer *)









(** The text for the host of the examples. *)
Example getSystemInfo_text_example :
  exists text,
    snd (getSystemInfo Example.host Example.world) = inr (textResult text false) /\
    Js.includes text (quoted "uptime" +:+ ": " +:+ quoted "2時間") = true /\
    Js.includes text (quoted "total" +:+ ": " +:+ quoted "16GB") = true /\
    Js.includes text (quoted "free" +:+ ": " +:+ quoted "8GB") = true /\
    Js.includes text (quoted "cpus" +:+ ": " +:+ pretty (cpus Example.host)) = true /\
    Js.includes text (quoted "homeDir" +:+ ": " +:+ quoted "/home/myself") = true.
Proof. eexists. split; [reflexivity |]. vm_compute. repeat split. Qed.

(** Quotes, backslashes and control characters are escaped. *)
Example escape_example :
  Json.escape ("C:" +:+ Json.backslash +:+ "tmp" +:+ LF +:+ Js.dquote)
  = "C:" +:+ Json.backslash +:+ Json.backslash +:+ "tmp" +:+ Json.backslash
    +:+ "n" +:+ Json.backslash +:+ Js.dquote.
Proof. reflexivity. Qed.

Example getSystemInfo_example :
  info_uptime (systemInfo Example.host) = "2時間" /\
  total (info_memory (systemInfo Example.host)) = "16GB" /\
  free (info_memory (systemInfo Example.host)) = "8GB".
Proof. repeat split. Qed.

(** ** [create_sample_file] *)

Lemma resolve_two_strings (h : Host) (dir p : string) :
  Path.resolve h [JsString dir; JsString p] = inr (resolvedIn h dir p).
Proof.
  unfold resolvedIn.
  destruct (Path.resolve h [JsString dir; JsString p]) as [e|n] eqn:E;
    [exfalso | reflexivity].
  unfold Path.resolve in E. throws_simpl.
  destruct (Js.truthy_string p); [destruct (Path.isAbsolute p) |];
    simpl in E;
    (destruct (Js.truthy_string dir); [destruct (Path.isAbsolute dir) |]);
    simpl in E;
    destruct (Js.truthy_string (cwd h)); simpl in E;
    repeat match type of E with
           | context [if ?b then _ else _] => destruct b
           end; discriminate.
Qed.

Section CreateSampleFile.
Context {FS : Type} `{FileSystem FS}.
Variable h : Host.
Variable pv : PathValidator.

(** [createSampleFile] on a string name: resolve against the working
    directory, validate the path, write the template, return it. *)
Lemma createSampleFile_steps (f : string) (w : World FS) :
  createSampleFile h pv (JsString f) w =
  let name := if Js.truthy_string f then f else "sample.txt" in
  let v := validatePath h pv (JsString (resolvedIn h (cwd h) name)) in
  let failed w' e := (w', inl (rethrown "サンプルファイルの作成に失敗: " e)) in
  if negb (isValid v) then failed w (new_Error_opt (error v))
  else
    let w1 :=
      after w [ConsoleError
                 ("Creating sample file: " +:+ js_show (normalizedPath v))] in
    match writeFile_utf8 (normalizedPath v) (JsString (sampleContent h)) w1 with
    | (w2, inl e) => failed w2 e
    | (w2, inr _) =>
        (w2, inr (textResult (sampleHeader (normalizedPath v) +:+ sampleContent h)
                             false))
    end.
Proof.
  unfold createSampleFile. cbn [js_truthy].
  destruct (Js.truthy_string f); cbv zeta;
    task_unfold; rewrite resolve_two_strings; simpl;
    (destruct (isValid _); simpl; [| reflexivity]);
    (destruct (fs_writeFile _ _ _) as [fs2 [e|[]]]; simpl; [reflexivity |]);
    unfold sampleHeader; rewrite !append_assoc; reflexivity.
Qed.

(** A falsy [filename] (in particular an omitted one) stands for
    [sample.txt]. *)
Lemma createSampleFile_default (filename : JsValue) :
  js_truthy filename = false ->
  createSampleFile h pv filename = createSampleFile h pv (JsString "sample.txt").
Proof. intros Hf. unfold createSampleFile. rewrite Hf. reflexivity. Qed.

End CreateSampleFile.

(** [validatePath] does not look at the allowed extensions. *)
Lemma validatePath_withExtensions (h : Host) (pv : PathValidator)
      (exts : list string) (v : JsValue) :
  validatePath h (withExtensions pv exts) v = validatePath h pv v.
Proof. reflexivity. Qed.

(** C6.  [create_sample_file] uses the file name [sample.txt] when the
    argument is omitted (or falsy); it resolves the name against the working
    directory and validates the resolved path with [validatePath]; the
    allowed extensions play no part; when the path is denied nothing is
    written; otherwise the one call to the file system writes the template
    (fixed by the host: date, Node version, platform, architecture) to the
    normalized path, and on success the result is not an error and its text
    ends with the very content that was written. *)
Theorem createSampleFile_spec {FS : Type} `{FileSystem FS}
        (h : Host) (pv : PathValidator) (filename : JsValue) (w : World FS) :
  (js_truthy filename = false ->
   createSampleFile h pv filename w
   = createSampleFile h pv (JsString "sample.txt") w) /\
  (forall exts,
      createSampleFile h (withExtensions pv exts) filename w
      = createSampleFile h pv filename w) /\
  (forall f,
      (if js_truthy filename then filename else JsString "sample.txt")
      = JsString f ->
      let v := validatePath h pv (JsString (resolvedIn h (cwd h) f)) in
      (isValid v = false ->
       exists e, createSampleFile h pv filename w = (w, inl e)) /\
      (isValid v = true ->
       exists n,
         normalizedPath v = JsString n /\
         n = resolved h (resolvedIn h (cwd h) f) /\
         forall fs',
           fs_writeFile (JsString n) (JsString (sampleContent h)) (files w)
           = (fs', inr tt) ->
           exists w' result,
             createSampleFile h pv filename w = (w', inr result) /\
             files w' = fs' /\
             fsCalls (trace w') =
             fsCalls (trace w) ++
             [FsWriteFile (JsString n) (JsString (sampleContent h))] /\
             isError result = false /\
             result = textResult (sampleHeader (JsString n) +:+ sampleContent h)
                                 false /\
             names result (sampleContent h) = true)).
Proof.
  split; [intros Hf; rewrite (createSampleFile_default h pv filename Hf);
          reflexivity |].
  split; [reflexivity |].
  intros f Hname v.
  assert (Hsame : createSampleFile h pv filename w
                  = createSampleFile h pv (JsString f) w /\
                  Js.truthy_string f = true).
  { destruct (js_truthy filename) eqn:Hf.
    - subst filename. split; [reflexivity | exact Hf].
    - injection Hname as <-. split; [| reflexivity].
      rewrite (createSampleFile_default h pv filename Hf). reflexivity. }
  destruct Hsame as [-> Htruthy].
  rewrite createSampleFile_steps, Htruthy. cbv beta iota zeta. fold v.
  split.
  - intros Hv. rewrite Hv. simpl. eauto.
  - intros Hv. exists (resolved h (resolvedIn h (cwd h) f)).
    pose proof (validatePath_valid h pv _ Hv) as Hres. fold v in Hres.
    rewrite Hv. cbn [negb]. rewrite Hres. cbn [normalizedPath allowed].
    split; [reflexivity |]. split; [reflexivity |].
    intros fs' Hwrite. unfold writeFile_utf8. cbn [files after].
    rewrite Hwrite. eexists _, _. split; [reflexivity |].
    split; [reflexivity |]. split.
    + cbn [trace]. rewrite fsCalls_app. f_equal.
      unfold after. cbn [trace]. apply fsCalls_console. reflexivity.
    + split; [reflexivity |]. split; [reflexivity |].
      apply names_textResult, includes_suffix.
Qed.

(** In the example the working directory [/sandbox/work] lies in the
    sandbox: without a [filename] the template goes to
    [/sandbox/work/sample.txt] and comes back in the result. *)
Lemma createSampleFile_spec_witness :
  exists w' result,
    createSampleFile Example.host Example.sandbox JsUndefined Example.world
    = (w', inr result) /\
    files w' = <["/sandbox/work/sample.txt" :=
                   MemFS.File (sampleContent Example.host)]> (files Example.world) /\
    isError result = false /\
    names result (sampleContent Example.host) = true.
Proof.
  destruct (createSampleFile_spec Example.host Example.sandbox JsUndefined
              Example.world) as (_ & _ & Hrun).
  destruct (Hrun "sample.txt" eq_refl) as [_ Hvalid].
  destruct (Hvalid eq_refl) as (n & Hn & _ & Hwrite).
  injection Hn as <-.
  destruct (Hwrite _ eq_refl)
    as (w' & result & Hcall & Hfiles & _ & Herr & _ & Hnames).
  exists w', result. repeat split; assumption.
Defined.

(** No extension check: a name with an extension outside the allowed ones
    is written all the same. *)
Example createSampleFile_any_extension :
  validateFileExtension Example.sandbox (JsString "/sandbox/work/tool.exe")
  = inr {| ext_isValid := false;
           ext_error := Some (msg_bad_extension ".exe" [".txt"; ".md"]) |} /\
  exists w' result,
    callTool Example.host Example.sandbox
             (Example.request "create_sample_file" [("filename", JsString "tool.exe")])
             Example.world = (w', inr result) /\
    isError result = false /\
    files w' !! "/sandbox/work/tool.exe"
    = Some (MemFS.File (sampleContent Example.host)).
Proof. split; [reflexivity |]. eexists _, _. repeat split. Qed.

(** * Further properties *)

(** ** [validatePath]: inputs that are not strings *)

Lemma resolve_non_string (h : Host) (v : JsValue) :
  (forall s, v <> JsString s) ->
  Path.resolve h [v] = inl (ERR_INVALID_ARG_TYPE "paths[0]" v).
Proof.
  intros Hv. destruct v as [| s |t shown]; try reflexivity.
  exfalso. exact (Hv s eq_refl).
Qed.

(** The [catch] of [validatePath]. *)
Lemma validatePath_catch (h : Host) (pv : PathValidator) (v : JsValue) :
  (forall s, v <> JsString s) ->
  validatePath h pv v =
  {| isValid := false;
     normalizedPath := v;
     error := Some (msg_invalid_path (ERR_INVALID_ARG_TYPE "paths[0]" v)) |}.
Proof.
  intros Hv. unfold validatePath, validatePath_try.
  rewrite (resolve_non_string h v Hv). reflexivity.
Qed.

(** X1.  An input that is not a string (a missing argument reads as
    [undefined]) makes [path.resolve] throw; the [catch] of [validatePath]
    turns that into an invalid result that carries the input unchanged and
    the message of the type error, under every policy, also one that
    allows every path.  Nothing is thrown to the caller. *)
Theorem validatePath_non_string (h : Host) (pv : PathValidator) (v : JsValue) :
  (forall s, v <> JsString s) ->
  validatePath h pv v =
  {| isValid := false;
     normalizedPath := v;
     error := Some (msg_invalid_path (ERR_INVALID_ARG_TYPE "paths[0]" v)) |} /\
  validatePath h (withAllowed pv [""]) v = validatePath h pv v.
Proof.
  intros Hv. rewrite !(validatePath_catch h _ v Hv). split; reflexivity.
Qed.

Lemma validatePath_non_string_witness :
  validatePath Example.host Example.sandbox JsUndefined =
  {| isValid := false;
     normalizedPath := JsUndefined;
     error := Some (msg_invalid_path
                      (ERR_INVALID_ARG_TYPE "paths[0]" JsUndefined)) |} /\
  validatePath Example.host (withAllowed Example.sandbox [""]) JsUndefined
  = validatePath Example.host Example.sandbox JsUndefined.
Proof.
  apply (validatePath_non_string Example.host Example.sandbox JsUndefined).
  intros s Hs. discriminate Hs.
Defined.

(** ** [validatePath]: the shape of its results *)

Lemma find_none_forallb {A : Type} (f : A -> bool) (l : list A) :
  List.find f l = None <-> forallb (fun x => negb (f x)) l = true.
Proof.
  induction l as [|a l IH]; simpl; [tauto |].
  destruct (f a); simpl; [split; discriminate | exact IH].
Qed.

(** Validity is the test [permittedPath] on the resolved path. *)
Lemma isValid_permittedPath (h : Host) (pv : PathValidator) (p : string) :
  isValid (validatePath h pv (JsString p)) = permittedPath h pv (resolved h p).
Proof.
  rewrite validatePath_string. unfold permittedPath.
  destruct (List.find _ (blockedPaths pv)) as [b|] eqn:Hfind.
  - destruct (forallb _ (blockedPaths pv)) eqn:Hall; [| reflexivity].
    apply find_none_forallb in Hall. congruence.
  - apply find_none_forallb in Hfind. rewrite Hfind. simpl.
    destruct (existsb _ (allowedPaths pv)); reflexivity.
Qed.

Lemma validatePath_normalizedPath (h : Host) (pv : PathValidator) (p : string) :
  normalizedPath (validatePath h pv (JsString p)) = JsString (resolved h p).
Proof.
  rewrite validatePath_string.
  destruct (List.find _ (blockedPaths pv)); [reflexivity |].
  destruct (existsb _ (allowedPaths pv)); reflexivity.
Qed.

Lemma validatePath_valid_string (h : Host) (pv : PathValidator) (v : JsValue) :
  isValid (validatePath h pv v) = true -> exists p, v = JsString p.
Proof.
  destruct v as [| s |t shown]; [discriminate | eauto | discriminate].
Qed.

(** X2.  The result of [validatePath] is valid exactly when it has no error
    message, for every input, string or not; a valid result carries a
    string as its normalized path.  So a caller that throws
    [new Error(result.error)] on an invalid result always has a message. *)
Theorem validatePath_error_iff (h : Host) (pv : PathValidator) (v : JsValue) :
  (isValid (validatePath h pv v) = true <-> error (validatePath h pv v) = None) /\
  (isValid (validatePath h pv v) = true ->
   exists p, v = JsString p /\
             normalizedPath (validatePath h pv v) = JsString (resolved h p)).
Proof.
  split.
  - destruct (isValid (validatePath h pv v)) eqn:Hv.
    + destruct (validatePath_valid_string h pv v Hv) as [p ->].
      rewrite (validatePath_valid h pv p Hv). split; reflexivity.
    + destruct (validatePath_invalid_error h pv v Hv) as [msg Hmsg].
      rewrite Hmsg. split; discriminate.
  - intros Hv. destruct (validatePath_valid_string h pv v Hv) as [p ->].
    exists p. split; [reflexivity | apply validatePath_normalizedPath].
Qed.

(** X3.  On a host whose working directory is absolute, the normalized path
    of every result for a string input is the root followed by segments
    joined by separators, none of them empty, [.] or [..]: no input, however
    it is spelled, leaves a [..] in the path the tools use. *)
Theorem validatePath_normalized_shape (h : Host) (pv : PathValidator)
        (p : string) :
  Path.isAbsolute (cwd h) = true ->
  exists segs,
    Forall cleanSegment segs /\
    normalizedPath (validatePath h pv (JsString p))
    = JsString ("/" +:+ Js.join "/" segs).
Proof.
  intros Hcwd.
  destruct (resolve_absolute h p (or_intror Hcwd)) as [raw Hraw].
  destruct (normalizeString_false_clean raw) as (segs & Hclean & Hjoin).
  exists segs. split; [exact Hclean |].
  rewrite validatePath_normalizedPath, Hraw, Hjoin. reflexivity.
Qed.

Lemma validatePath_normalized_shape_witness :
  exists segs,
    Forall cleanSegment segs /\
    normalizedPath (validatePath Example.host Example.sandbox
                                 (JsString "a/./b/../../../x//y/"))
    = JsString ("/" +:+ Js.join "/" segs).
Proof.
  apply (validatePath_normalized_shape Example.host Example.sandbox
           "a/./b/../../../x//y/").
  reflexivity.
Defined.

Example normalized_example :
  normalizedPath (validatePath Example.host Example.sandbox
                               (JsString "a/./b/../../../x//y/"))
  = JsString "/sandbox/x/y".
Proof. reflexivity. Qed.

(** ** [validatePath]: how the decision depends on the policy *)

Lemma forallb_app_true {A : Type} (f : A -> bool) (l1 l2 : list A) :
  forallb f (l1 ++ l2) = true -> forallb f l1 = true.
Proof.
  rewrite List.forallb_app. intros Hall.
  apply andb_true_iff in Hall as [H1 _]. exact H1.
Qed.

(** X6.  The decision is monotone in the policy: blocking more entries never
    allows a path that was denied, and allowing more entries never denies a
    path that was allowed. *)
Theorem validatePath_monotone (h : Host) (pv : PathValidator)
        (more : list string) (p : string) :
  (isValid (validatePath h (withBlocked pv more) (JsString p)) = true ->
   isValid (validatePath h pv (JsString p)) = true) /\
  (isValid (validatePath h pv (JsString p)) = true ->
   isValid (validatePath h (withAllowed pv more) (JsString p)) = true).
Proof.
  rewrite !isValid_permittedPath. unfold permittedPath. simpl. split.
  - intros Hok. apply andb_true_iff in Hok as [Hb Ha].
    apply forallb_app_true in Hb. rewrite Hb, Ha. reflexivity.
  - intros Hok. apply andb_true_iff in Hok as [Hb Ha].
    rewrite Hb, List.existsb_app, Ha. reflexivity.
Qed.

Lemma startsWith_absolute_relative (x a : string) :
  a <> "" -> Path.isAbsolute a = false -> Js.startsWith ("/" +:+ x) a = false.
Proof.
  intros Hne Hrel. destruct a as [|c a]; [contradiction |].
  rewrite append_cons. simpl in *.
  destruct (Ascii.eqb c "/") eqn:E; [| reflexivity].
  apply Ascii.eqb_eq in E; subst c. discriminate.
Qed.

(** X7.  The allowed entries are compared as they are configured, not
    resolved: on a host whose working directory is absolute, an allowed
    entry that is a relative path (not empty, not starting with the
    separator) matches no input.  Adding such entries to a policy changes
    no decision. *)
Theorem relative_allowed_entries_are_inert (h : Host) (pv : PathValidator)
        (more : list string) (p : string) :
  Path.isAbsolute (cwd h) = true ->
  Forall (fun a => a <> "" /\ Path.isAbsolute a = false) more ->
  isValid (validatePath h (withAllowed pv more) (JsString p))
  = isValid (validatePath h pv (JsString p)).
Proof.
  intros Hcwd Hrel. rewrite !isValid_permittedPath. unfold permittedPath. simpl.
  f_equal. rewrite List.existsb_app.
  assert (Hnone : existsb (Js.startsWith (resolved h p)) more = false).
  { destruct (resolve_absolute h p (or_intror Hcwd)) as [raw ->].
    induction Hrel as [|a l [Hne Ha] _ IH]; [reflexivity |].
    simpl. rewrite (startsWith_absolute_relative _ a Hne Ha). exact IH. }
  rewrite Hnone. apply orb_false_r.
Qed.

(** The entry [sandbox] (relative) allows nothing, not even a path of the
    directory [sandbox] under the working directory. *)
Lemma relative_allowed_entries_are_inert_witness :
  let pv := {| allowedPaths := []; blockedPaths := [];
               allowedExtensions := [] |} in
  isValid (validatePath Example.host (withAllowed pv ["sandbox"; "work/docs"])
                        (JsString "sandbox/a.txt"))
  = isValid (validatePath Example.host pv (JsString "sandbox/a.txt")).
Proof.
  apply (relative_allowed_entries_are_inert Example.host
           {| allowedPaths := []; blockedPaths := []; allowedExtensions := [] |}
           ["sandbox"; "work/docs"] "sandbox/a.txt").
  - reflexivity.
  - repeat constructor; discriminate.
Defined.

(** ** [get_allowed_paths] *)

(** X8.  [get_allowed_paths] validates nothing and touches nothing: in every
    world it returns a result that is not an error and leaves the world,
    files and trace, exactly as it was; its text names every configured
    allowed entry. *)
Theorem getAllowedPaths_spec {FS : Type} (pv : PathValidator) (w : World FS) :
  exists result,
    getAllowedPaths pv w = (w, inr result) /\
    isError result = false /\
    forall a, In a (allowedPaths pv) -> names result a = true.
Proof.
  eexists. split; [reflexivity |]. split; [reflexivity |].
  intros a Hin. apply names_textResult.
  rewrite <- !append_assoc. rewrite !append_assoc.
  change ("アクセス可能なパス一覧:" +:+ LF +:+ LF +:+
          Js.join LF (map (fun p => "📁 " +:+ p) (getAllowedPaths_validator pv))
          +:+ LF +:+ LF +:+
          "注意: これらのディレクトリとそのサブディレクトリのみアクセス可能です。")
    with (("アクセス可能なパス一覧:" +:+ LF +:+ LF) +:+
          Js.join LF (map (fun p => "📁 " +:+ p) (allowedPaths pv))
          +:+ (LF +:+ LF +:+
          "注意: これらのディレクトリとそのサブディレクトリのみアクセス可能です。")).
  apply includes_inside.
  apply (includes_join LF _ ("📁 " +:+ a)).
  - apply in_map_iff. exists a. split; [reflexivity | exact Hin].
  - apply includes_suffix.
Qed.

(** ** [list_directory] *)

Section ListDirectory.
Context {FS : Type} `{FileSystem FS}.
Variable h : Host.
Variable pv : PathValidator.

(** [listDirectory]: the path, then the listing; no extension is looked at. *)
Lemma listDirectory_steps (dirpath : JsValue) (w : World FS) :
  listDirectory h pv dirpath w =
  let v := validatePath h pv dirpath in
  let failed e := inl (rethrown "ディレクトリの一覧取得に失敗: " e) in
  if negb (isValid v) then (w, failed (new_Error_opt (error v)))
  else
    let w1 :=
      after (after w [ConsoleError
                        ("Listing directory: " +:+ js_show (normalizedPath v))])
            [FsReaddir (normalizedPath v)] in
    match fs_readdir_withFileTypes (normalizedPath v) (files w) with
    | inl e => (w1, failed e)
    | inr items =>
        (w1, inr (textResult
                    (listingHeader (js_show (normalizedPath v)) +:+
                     Js.join LF (map listingLine items))
                    false))
    end.
Proof.
  unfold listDirectory. task_unfold. simpl.
  destruct (isValid (validatePath h pv dirpath)); simpl; [| reflexivity].
  destruct (fs_readdir_withFileTypes _ (files w)); [reflexivity |].
  unfold listingHeader. rewrite !append_assoc. reflexivity.
Qed.

End ListDirectory.

(** X9.  [list_directory] checks the path and nothing else: its outcome does
    not depend on the allowed extensions.  A denied path is not listed.  For
    an allowed path the one call to the file system is the listing of the
    normalized path; the result is not an error and shows the entries in
    the order the file system gave them, one per line, each tagged as
    directory or file; an empty directory gives the header alone.  The
    files are left as they were. *)
Theorem listDirectory_spec {FS : Type} `{FileSystem FS}
        (h : Host) (pv : PathValidator) (p : string) (w : World FS) :
  let v := validatePath h pv (JsString p) in
  let n := resolved h p in
  (forall exts,
      listDirectory h (withExtensions pv exts) (JsString p) w
      = listDirectory h pv (JsString p) w) /\
  (isValid v = false ->
   exists e, listDirectory h pv (JsString p) w = (w, inl e)) /\
  (isValid v = true ->
   forall items,
     fs_readdir_withFileTypes (JsString n) (files w) = inr items ->
     exists w',
       listDirectory h pv (JsString p) w
       = (w', inr (textResult (listingHeader n +:+
                               Js.join LF (map listingLine items)) false)) /\
       files w' = files w /\
       fsCalls (trace w') = fsCalls (trace w) ++ [FsReaddir (JsString n)] /\
       (items = [] ->
        listDirectory h pv (JsString p) w
        = (w', inr (textResult (listingHeader n) false)))).
Proof.
  intros v n. split; [reflexivity |].
  rewrite listDirectory_steps. fold v. cbv zeta. split.
  - intros Hv. rewrite Hv. simpl. eauto.
  - intros Hv items Hitems. rewrite Hv. cbn [negb].
    unfold v. rewrite validatePath_normalizedPath. fold n. cbn [js_show].
    rewrite Hitems. eexists. split; [reflexivity |].
    split; [reflexivity |]. split.
    + cbn [trace after]. rewrite !fsCalls_app. simpl. rewrite app_nil_r.
      reflexivity.
    + intros ->. simpl. rewrite append_nil_r. reflexivity.
Qed.

(** The directory [/sandbox/work] of the example is empty. *)
Lemma listDirectory_spec_witness :
  exists w',
    listDirectory Example.host Example.sandbox (JsString "/sandbox/work")
                  Example.world
    = (w', inr (textResult (listingHeader "/sandbox/work") false)) /\
    files w' = files Example.world.
Proof.
  destruct (listDirectory_spec Example.host Example.sandbox "/sandbox/work"
              Example.world) as (_ & _ & Hlist).
  destruct (Hlist eq_refl [] eq_refl) as (w' & _ & Hfiles & _ & Hempty).
  exists w'. split; [exact (Hempty eq_refl) | exact Hfiles].
Defined.

Example listDirectory_example :
  exists w',
    listDirectory Example.host Example.sandbox (JsString "/sandbox")
                  Example.world
    = (w', inr (textResult
                  (listingHeader "/sandbox" +:+
                   Js.join LF ["📁 work"; "📄 hello.txt"]) false)).
Proof. eexists. vm_compute. reflexivity. Qed.

(** ** A path argument that is missing or not a string *)

Lemma names_rethrown_message (prefix msg : string) :
  msg <> "" ->
  names (errorResult (rethrown prefix (new_Error_opt (Some msg)))) msg = true.
Proof.
  intros Hne. unfold errorResult, rethrown, new_Error_opt. simpl default.
  rewrite (exn_toString_new_Error msg Hne). cbn [exn_message new_Error].
  apply names_textResult.
  rewrite <- !append_assoc. apply includes_suffix.
Qed.

Lemma msg_invalid_path_nonempty (e : Exn) : msg_invalid_path e <> "".
Proof. discriminate. Qed.

(** X10.  [read_file], [write_file] and [list_directory] called without
    their path argument, or with one that is not a string, end in an error
    result whose text carries the invalid-path message of [validatePath];
    the file system is not called and the files are as they were. *)
Theorem path_argument_required {FS : Type} `{FileSystem FS}
        (h : Host) (pv : PathValidator) (toolName key : string)
        (args : gmap string JsValue) (w : World FS) :
  In (toolName, key)
     [("read_file", "filepath"); ("write_file", "filepath");
      ("list_directory", "dirpath")] ->
  (forall s, member args key <> JsString s) ->
  exists w' result,
    callTool h pv {| name := toolName; arguments := Some args |} w
    = (w', inr result) /\
    isError result = true /\
    files w' = files w /\
    fsCalls (trace w') = fsCalls (trace w) /\
    names result (msg_invalid_path
                    (ERR_INVALID_ARG_TYPE "paths[0]" (member args key))) = true.
Proof.
  intros Htool Hmissing.
  pose proof (validatePath_catch h pv _ Hmissing) as Hv.
  rewrite (callTool_dispatch h pv {| name := toolName; arguments := Some args |}
             args w eq_refl).
  cbn [name].
  set (w0 := after w [received {| name := toolName; arguments := Some args |}]).
  assert (Hthrown :
            dispatch h pv toolName args w0
            = (w0,
               inl (rethrown (if String.eqb toolName "read_file"
                              then "ファイルの読み込みに失敗: "
                              else if String.eqb toolName "write_file"
                                   then "ファイルの書き込みに失敗: "
                                   else "ディレクトリの一覧取得に失敗: ")
                             (new_Error_opt
                                (Some (msg_invalid_path
                                         (ERR_INVALID_ARG_TYPE "paths[0]"
                                            (member args key)))))))).
  { simpl in Htool.
    destruct Htool as [E | [E | [E | []]]]; injection E as <- <-.
    - change (dispatch h pv "read_file" args)
        with (readFile h pv (member args "filepath")).
      rewrite readFile_steps. cbv zeta. rewrite Hv. reflexivity.
    - change (dispatch h pv "write_file" args)
        with (writeFile h pv (member args "filepath") (member args "content")).
      rewrite writeFile_steps. cbv zeta. rewrite Hv. reflexivity.
    - change (dispatch h pv "list_directory" args)
        with (listDirectory h pv (member args "dirpath")).
      rewrite listDirectory_steps. cbv zeta. rewrite Hv. reflexivity. }
  rewrite Hthrown. eexists _, _. split; [reflexivity |].
  split; [reflexivity |]. split; [reflexivity |]. split.
  - unfold w0. cbn [trace after]. rewrite <- app_assoc.
    apply fsCalls_console. reflexivity.
  - apply names_rethrown_message, msg_invalid_path_nonempty.
Qed.

Lemma path_argument_required_witness :
  let args : gmap string JsValue := list_to_map [("content", JsString "x")] in
  exists w' result,
    callTool Example.host Example.sandbox
             {| name := "write_file"; arguments := Some args |} Example.world
    = (w', inr result) /\
    isError result = true /\
    files w' = files Example.world /\
    fsCalls (trace w') = fsCalls (trace Example.world) /\
    names result (msg_invalid_path
                    (ERR_INVALID_ARG_TYPE "paths[0]" (member args "filepath")))
    = true.
Proof.
  intros args.
  apply (path_argument_required Example.host Example.sandbox
           "write_file" "filepath" args Example.world).
  - simpl. auto.
  - intros s Hs. vm_compute in Hs. discriminate Hs.
Defined.

(** ** [write_file]: the directory, then the file *)

Lemma dirname_string (p : string) : exists d, Path.dirname (JsString p) = inr d.
Proof.
  unfold Path.dirname. throws_simpl. destruct p as [|c0 tail]; [eauto |].
  destruct (Path.skipName _) as [|x rev_dir]; [eauto |].
  destruct (_ && _); eauto.
Qed.

(** X11.  When both validations of [write_file] pass, the tool first makes
    the directory part of the normalized path, recursively, and only then
    writes the file.  If making the directory fails the file is not
    written, and the failure is thrown on; otherwise the calls are, in this
    order, the [mkdir] of the directory and the [writeFile] of the
    normalized path with the content as it was given. *)
Theorem writeFile_mkdir_then_write {FS : Type} `{FileSystem FS}
        (h : Host) (pv : PathValidator) (p : string) (data : JsValue)
        (w : World FS) :
  let n := resolved h p in
  let prefix := "ファイルの書き込みに失敗: " in
  isValid (validatePath h pv (JsString p)) = true ->
  validateFileExtension pv (JsString n)
  = inr {| ext_isValid := true; ext_error := None |} ->
  exists dir,
    Path.dirname (JsString n) = inr dir /\
    (forall fs1 e,
        fs_mkdir_recursive (JsString dir) (files w) = (fs1, inl e) ->
        exists w',
          writeFile h pv (JsString p) data w = (w', inl (rethrown prefix e)) /\
          files w' = fs1 /\
          fsCalls (trace w') = fsCalls (trace w) ++ [FsMkdir (JsString dir)]) /\
    (forall fs1 fs2 r,
        fs_mkdir_recursive (JsString dir) (files w) = (fs1, inr tt) ->
        fs_writeFile (JsString n) data fs1 = (fs2, r) ->
        exists w' outcome,
          writeFile h pv (JsString p) data w = (w', outcome) /\
          files w' = fs2 /\
          fsCalls (trace w')
          = fsCalls (trace w) ++
            [FsMkdir (JsString dir); FsWriteFile (JsString n) data] /\
          match r with
          | inr _ =>
              outcome = inr (textResult
                               ("ファイル " +:+ quoted n
                                +:+ " に正常に書き込みました") false)
          | inl e => outcome = inl (rethrown prefix e)
          end).
Proof.
  intros n prefix Hv Hext.
  destruct (dirname_string n) as [dir Hdir]. exists dir.
  split; [exact Hdir |].
  assert (Hsteps := writeFile_steps h pv (JsString p) data w).
  cbv zeta in Hsteps.
  rewrite Hv, validatePath_normalizedPath in Hsteps. fold n in Hsteps.
  rewrite Hext, Hdir in Hsteps. cbn [negb ext_isValid js_show] in Hsteps.
  unfold mkdir_recursive, writeFile_utf8 in Hsteps.
  cbn [files trace after] in Hsteps.
  split.
  - intros fs1 e Hmk. rewrite Hmk in Hsteps. rewrite Hsteps.
    eexists. split; [reflexivity |]. split; [reflexivity |].
    cbn [trace]. rewrite !fsCalls_app. simpl. rewrite app_nil_r. reflexivity.
  - intros fs1 fs2 r Hmk Hwr. rewrite Hmk in Hsteps. cbn [files] in Hsteps.
    rewrite Hwr in Hsteps. rewrite Hsteps.
    destruct r as [e|[]]; eexists _, _;
      (split; [reflexivity |]); (split; [reflexivity |]);
      (split; [| reflexivity]);
      cbn [trace]; rewrite !fsCalls_app; simpl; rewrite app_nil_r;
      rewrite <- app_assoc; reflexivity.
Qed.

(** In the example [/sandbox/hello.txt] is a file: the directory
    [/sandbox/hello.txt/sub] cannot be made, and nothing is written. *)
Lemma writeFile_mkdir_then_write_witness :
  exists w' e,
    writeFile Example.host Example.sandbox
              (JsString "/sandbox/hello.txt/sub/a.txt") (JsString "x")
              Example.world
    = (w', inl e) /\
    files w' = files Example.world /\
    fsCalls (trace w') = [FsMkdir (JsString "/sandbox/hello.txt/sub")].
Proof.
  destruct (writeFile_mkdir_then_write Example.host Example.sandbox
              "/sandbox/hello.txt/sub/a.txt" (JsString "x") Example.world
              eq_refl eq_refl) as (dir & Hdir & Hfail & _).
  injection Hdir as <-.
  destruct (Hfail (files Example.world)
                  (MemFS.EEXIST "mkdir" "/sandbox/hello.txt/sub") eq_refl)
    as (w' & Hw & Hfiles & Hcalls).
  exists w', (rethrown "ファイルの書き込みに失敗: "
                       (MemFS.EEXIST "mkdir" "/sandbox/hello.txt/sub")).
  split; [exact Hw |]. split; [exact Hfiles | exact Hcalls].
Defined.

(** ** The file system is only called on permitted paths *)



(** A validated path passes the test of the policy as it stands, and with
    an absolute working directory [validatePath] allows it unchanged. *)
Lemma validatedPath_allowed (h : Host) (pv : PathValidator) (n : string) :
  validatedPath h pv n ->
  permittedPath h pv n = true /\
  (Path.isAbsolute (cwd h) = true ->
   validatePath h pv (JsString n) = allowed n).
Proof.
  intros (p & Hv & ->). split.
  - rewrite <- isValid_permittedPath. exact Hv.
  - intros Hcwd. rewrite <- (validatePath_valid h pv p Hv).
    rewrite !validatePath_string.
    rewrite (resolve_idempotent h p (or_intror Hcwd)). reflexivity.
Qed.

Section Sandboxed.
Context {FS : Type} `{FileSystem FS}.
Variable h : Host.
Variable pv : PathValidator.













End Sandboxed.


(** A session that tries paths outside the sandbox: the one call made is the
    read of the file inside it. *)
Example serve_sandboxed_example :
  fsCalls (trace (fst (fst (serve Example.host Example.sandbox
    [Example.request "read_file" [("filepath", JsString "/etc/passwd")];
     Example.request "write_file" [("filepath", JsString "/sandbox/.secret/k.txt");
                                   ("content", JsString "x")];
     Example.request "list_directory" [("dirpath", JsString "/sandbox/../home")];
     Example.request "read_file" [("filepath", JsString "../hello.txt")]]
    Example.world))))
  = [FsReadFile (JsString "/sandbox/hello.txt")].
Proof. vm_compute. reflexivity. Qed.

(** A path with [..] in it is not in resolved form: no call on it is a
    permitted one, although the test of the policy taken alone would pass
    it. *)
Example unresolved_path_not_permitted :
  permittedPath Example.host Example.sandbox "/sandbox/../etc/passwd" = true /\
  isValid (validatePath Example.host Example.sandbox
                        (JsString "/sandbox/../etc/passwd")) = false /\
  ~ permittedCall Example.host Example.sandbox
                  (FsReadFile (JsString "/sandbox/../etc/passwd")).
Proof.
  split; [reflexivity |]. split; [reflexivity |].
  intros (n & [= <-] & Hn).
  destruct (validatedPath_allowed _ _ _ Hn) as [_ Hallowed].
  specialize (Hallowed eq_refl). vm_compute in Hallowed. discriminate Hallowed.
Qed.

(** ** Tools that only read *)

Section ReadOnly.
Context {FS : Type} `{FileSystem FS}.
Variable h : Host.
Variable pv : PathValidator.

Lemma readFile_keeps_files (filepath : JsValue) (w : World FS) :
  files (fst (readFile h pv filepath w)) = files w.
Proof.
  rewrite readFile_steps. cbv zeta.
  destruct (isValid _); cbn [negb]; [| reflexivity].
  destruct (validateFileExtension pv _) as [e|ext]; [reflexivity |].
  destruct (ext_isValid ext); cbn [negb]; [| reflexivity].
  destruct (fs_readFile _ _); reflexivity.
Qed.

Lemma listDirectory_keeps_files (dirpath : JsValue) (w : World FS) :
  files (fst (listDirectory h pv dirpath w)) = files w.
Proof.
  rewrite listDirectory_steps. cbv zeta.
  destruct (isValid _); cbn [negb]; [| reflexivity].
  destruct (fs_readdir_withFileTypes _ _); reflexivity.
Qed.

Lemma dispatch_keeps_files (toolName : string) (args : gmap string JsValue)
      (w : World FS) :
  ~ In toolName writers ->
  files (fst (dispatch h pv toolName args w)) = files w.
Proof.
  intros Hnot. unfold dispatch.
  destruct (String.eqb toolName "read_file"); [apply readFile_keeps_files |].
  destruct (String.eqb_spec toolName "write_file") as [-> | _];
    [exfalso; apply Hnot; simpl; auto |].
  destruct (String.eqb toolName "list_directory");
    [apply listDirectory_keeps_files |].
  destruct (String.eqb toolName "get_system_info"); [reflexivity |].
  destruct (String.eqb_spec toolName "create_sample_file") as [-> | _];
    [exfalso; apply Hnot; simpl; auto |].
  destruct (String.eqb toolName "get_allowed_paths"); reflexivity.
Qed.

Lemma callTool_keeps_files (params : CallToolParams) (w : World FS) :
  ~ In (name params) writers ->
  files (fst (callTool h pv params w)) = files w.
Proof.
  intros Hnot. destruct (arguments params) as [args|] eqn:Hargs.
  - rewrite (callTool_dispatch h pv params args w Hargs).
    pose proof (dispatch_keeps_files (name params) args
                  (after w [received params]) Hnot) as Hkeep.
    destruct (dispatch h pv (name params) args _) as [w1 [e|r]];
      exact Hkeep.
  - rewrite (callTool_no_arguments h pv params w Hargs). reflexivity.
Qed.

End ReadOnly.

(** X13.  Only [write_file] and [create_sample_file] can change the files: a
    session in which no request names one of the two, whatever else it
    names and whatever the arguments, ends with the file system it started
    with. *)
Theorem read_only_session_keeps_files {FS : Type} `{FileSystem FS}
        (h : Host) (pv : PathValidator) (requests : list CallToolParams)
        (w : World FS) :
  Forall (fun params => ~ In (name params) writers) requests ->
  files (fst (fst (serve h pv requests w))) = files w.
Proof.
  intros Hall. revert w.
  induction Hall as [|params rest Hnot _ IH]; intros w; [reflexivity |].
  simpl. pose proof (callTool_keeps_files h pv params w Hnot) as Hkeep.
  destruct (callTool h pv params w) as [w1 [e|result]]; [exact Hkeep |].
  specialize (IH w1).
  destruct (serve h pv rest w1) as [[w2 results] crashed].
  simpl in *. congruence.
Qed.

Lemma read_only_session_keeps_files_witness :
  files (fst (fst (serve Example.host Example.sandbox
    [Example.request "read_file" [("filepath", JsString "/sandbox/hello.txt")];
     Example.request "list_directory" [("dirpath", JsString "/sandbox")];
     Example.request "get_system_info" [];
     Example.request "remove_file" [("filepath", JsString "/sandbox/hello.txt")]]
    Example.world)))
  = files Example.world.
Proof.
  apply (read_only_session_keeps_files Example.host Example.sandbox).
  repeat constructor; simpl; intros Hin;
    repeat (destruct Hin as [Hin | Hin]; [discriminate |]); exact Hin.
Defined.

(** ** Writing, then reading *)

(** X14.  On a file system that reads back what was written (a successful
    write of a text to a path makes a read of that path return the text), a
    [write_file] that succeeds followed by a [read_file] of the same path
    returns the content that was written, under the normalized path. *)
Theorem write_then_read_round_trip {FS : Type} `{FileSystem FS}
        (h : Host) (pv : PathValidator) (p c : string)
        (w w1 : World FS) (written : CallToolResult) :
  (forall fs fs' n d,
      fs_writeFile (JsString n) (JsString d) fs = (fs', inr tt) ->
      fs_readFile (JsString n) fs' = inr d) ->
  writeFile h pv (JsString p) (JsString c) w = (w1, inr written) ->
  exists w2,
    readFile h pv (JsString p) w1
    = (w2, inr (textResult ("ファイル " +:+ quoted (resolved h p)
                            +:+ " の内容:" +:+ LF +:+ LF +:+ c) false)) /\
    files w2 = files w1.
Proof.
  intros Hlaw Hwrite.
  rewrite writeFile_steps in Hwrite. cbv zeta in Hwrite.
  rewrite readFile_steps. cbv zeta.
  rewrite validatePath_normalizedPath in *.
  destruct (isValid (validatePath h pv (JsString p))); cbn [negb] in *;
    [| discriminate].
  destruct (validateFileExtension pv (JsString (resolved h p))) as [e|ext];
    [discriminate |].
  destruct (ext_isValid ext); cbn [negb] in *; [| discriminate].
  destruct (Path.dirname (JsString (resolved h p))) as [e|dir];
    [discriminate |].
  unfold mkdir_recursive, writeFile_utf8 in Hwrite.
  cbn [files trace after] in Hwrite.
  destruct (fs_mkdir_recursive (JsString dir) (files w)) as [fs1 [e|[]]];
    [discriminate |].
  cbn [files trace] in Hwrite.
  destruct (fs_writeFile (JsString (resolved h p)) (JsString c) fs1)
    as [fs2 [e|[]]] eqn:Hwr; [discriminate |].
  injection Hwrite as <- _. cbn [files].
  rewrite (Hlaw fs1 fs2 _ _ Hwr). cbn [js_show].
  eexists. split; reflexivity.
Qed.

(** The file system in memory reads back what was written. *)
Lemma MemFS_reads_back (fs fs' : gmap string MemFS.Inode) (n d : string) :
  MemFS.writeFile (JsString n) (JsString d) fs = (fs', inr tt) ->
  MemFS.readFile (JsString n) fs' = inr d.
Proof.
  unfold MemFS.writeFile, MemFS.readFile. throws_simpl.
  destruct (Path.dirname (JsString n)) as [e|dir]; [intros [=] |].
  destruct (MemFS.isDirectory fs n); [intros [=] |].
  destruct (MemFS.isDirectory fs dir); [| intros [=]].
  intros [= <-]. rewrite lookup_insert_eq. reflexivity.
Qed.

Lemma write_then_read_round_trip_witness :
  exists w1 written w2,
    writeFile Example.host Example.sandbox
              (JsString "notes/a.md") (JsString "remember") Example.world
    = (w1, inr written) /\
    readFile Example.host Example.sandbox (JsString "notes/a.md") w1
    = (w2, inr (textResult
                  ("ファイル " +:+ quoted "/sandbox/work/notes/a.md"
                   +:+ " の内容:" +:+ LF +:+ LF +:+ "remember") false)).
Proof.
  eexists _, _.
  assert (Hwrite :
            writeFile Example.host Example.sandbox
                      (JsString "notes/a.md") (JsString "remember")
                      Example.world
            = (fst (writeFile Example.host Example.sandbox
                              (JsString "notes/a.md") (JsString "remember")
                              Example.world),
               inr (textResult
                      ("ファイル " +:+ quoted "/sandbox/work/notes/a.md"
                       +:+ " に正常に書き込みました") false)))
    by reflexivity.
  destruct (write_then_read_round_trip (H := MemFS.fileSystem)
              Example.host Example.sandbox
              "notes/a.md" "remember" Example.world _ _
              MemFS_reads_back Hwrite) as (w2 & Hread & _).
  exists w2. split; [exact Hwrite | exact Hread].
Defined.

(** ** The extension of a named file *)

(** X15.  For a file [dir/stem.e] (a non-empty [stem], no dot in [e])
    [validateFileExtension] looks at [.e] alone, in the lowercase that
    [toLowerCase] gives it (letters outside ASCII included): the path is
    valid exactly when that text is one of the allowed extensions as
    configured, whatever the directory and the stem are, and otherwise the
    error names it.  A trailing dot is the extension [.], which is not
    empty. *)
Theorem validateFileExtension_named (pv : PathValidator) (dir stem e : string) :
  stem <> "" -> noSeparator stem -> noSeparator e -> noDot e ->
  ~ (stem = "." /\ e = "") ->
  validateFileExtension pv (JsString (dir +:+ "/" +:+ stem +:+ "." +:+ e)) =
  inr (if Js.array_includes (allowedExtensions pv) (Js.toLowerCase ("." +:+ e))
       then {| ext_isValid := true; ext_error := None |}
       else {| ext_isValid := false;
               ext_error := Some (msg_bad_extension
                                    (Js.toLowerCase ("." +:+ e))
                                    (allowedExtensions pv)) |}).
Proof.
  intros Hstem Hsep Hsepe Hdot Hdots.
  unfold validateFileExtension. rewrite extname_string. throws_simpl.
  rewrite (extension_named dir stem e Hstem Hsep Hsepe Hdot Hdots).
  rewrite (lowercase_extension_truthy e). cbn [andb].
  destruct (Js.array_includes _ _); reflexivity.
Qed.

Lemma validateFileExtension_named_witness :
  validateFileExtension Example.sandbox
                        (JsString ("/sandbox/v1.2" +:+ "/" +:+ "report.final"
                                   +:+ "." +:+ "MD")) =
  inr (if Js.array_includes (allowedExtensions Example.sandbox)
                            (Js.toLowerCase ("." +:+ "MD"))
       then {| ext_isValid := true; ext_error := None |}
       else {| ext_isValid := false;
               ext_error := Some (msg_bad_extension
                                    (Js.toLowerCase ("." +:+ "MD"))
                                    (allowedExtensions Example.sandbox)) |}).
Proof.
  apply (validateFileExtension_named Example.sandbox
           "/sandbox/v1.2" "report.final" "MD").
  - discriminate.
  - intros Hin. simpl in Hin.
    repeat (destruct Hin as [Hin | Hin]; [discriminate |]). exact Hin.
  - intros Hin. simpl in Hin.
    repeat (destruct Hin as [Hin | Hin]; [discriminate |]). exact Hin.
  - intros Hin. simpl in Hin.
    repeat (destruct Hin as [Hin | Hin]; [discriminate |]). exact Hin.
  - intros [Hs _]. discriminate.
Defined.

(** Extensions outside ASCII: a capital A with diaeresis matches the small
    one of the policy, a Kelvin sign is the letter [k], and the error names
    the lowercase. *)
Example validateFileExtension_unicode :
  let pv := {| allowedPaths := ["/sandbox"]; blockedPaths := [];
               allowedExtensions := [".ä"; ".k"] |} in
  validateFileExtension pv (JsString "/sandbox/a.Ä")
  = inr {| ext_isValid := true; ext_error := None |} /\
  validateFileExtension pv (JsString "/sandbox/a.K")
  = inr {| ext_isValid := true; ext_error := None |} /\
  validateFileExtension Example.sandbox (JsString "/sandbox/a.Ä")
  = inr {| ext_isValid := false;
           ext_error := Some (msg_bad_extension ".ä"
                                (allowedExtensions Example.sandbox)) |}.
Proof. vm_compute. repeat split. Qed.

(** X16.  The extension check never rejects a file without an extension:
    under every policy, also one that allows no extension at all, a path
    whose last segment has no dot, or has its only dot in front (a dot-file
    such as [.env]), is valid. *)
Theorem validateFileExtension_no_extension (pv : PathValidator)
        (dir base : string) :
  base <> "" -> noSeparator base -> noDot base ->
  validateFileExtension pv (JsString (dir +:+ "/" +:+ base))
  = inr {| ext_isValid := true; ext_error := None |} /\
  validateFileExtension pv (JsString (dir +:+ "/" +:+ "." +:+ base))
  = inr {| ext_isValid := true; ext_error := None |}.
Proof.
  intros Hne Hsep Hdot.
  destruct (extension_none dir base Hsep Hdot) as [Hplain Hhidden].
  unfold validateFileExtension. rewrite !extname_string. throws_simpl.
  rewrite (Hplain Hne), Hhidden. split; reflexivity.
Qed.

Lemma validateFileExtension_no_extension_witness :
  let none := {| allowedPaths := ["/sandbox"]; blockedPaths := [];
                 allowedExtensions := [] |} in
  validateFileExtension none (JsString ("/sandbox" +:+ "/" +:+ "env"))
  = inr {| ext_isValid := true; ext_error := None |} /\
  validateFileExtension none (JsString ("/sandbox" +:+ "/" +:+ "." +:+ "env"))
  = inr {| ext_isValid := true; ext_error := None |}.
Proof.
  apply (validateFileExtension_no_extension
           {| allowedPaths := ["/sandbox"]; blockedPaths := [];
              allowedExtensions := [] |} "/sandbox" "env").
  - discriminate.
  - intros Hin. simpl in Hin.
    repeat (destruct Hin as [Hin | Hin]; [discriminate |]). exact Hin.
  - intros Hin. simpl in Hin.
    repeat (destruct Hin as [Hin | Hin]; [discriminate |]). exact Hin.
Defined.

(** ** What a tool returns and what it throws *)

Lemma try_catch_throws {FS A : Type} (body : Task FS A) (prefix : string)
      (w w' : World FS) (e : Exn) :
  try_catch body (fun caught => throw (rethrown prefix caught)) w = (w', inl e) ->
  exists caught, e = rethrown prefix caught.
Proof.
  unfold try_catch, throw. destruct (body w) as [w1 [e1|a]]; intros [= _ <-].
  exists e1. reflexivity.
Qed.

Section Outcomes.
Context {FS : Type} `{FileSystem FS}.
Variable h : Host.
Variable pv : PathValidator.

Lemma readFile_returns (filepath : JsValue) (w w' : World FS)
      (r : CallToolResult) :
  readFile h pv filepath w = (w', inr r) -> isError r = false.
Proof.
  rewrite readFile_steps. cbv zeta.
  destruct (isValid _); cbn [negb]; [| discriminate].
  destruct (validateFileExtension pv _) as [e|ext]; [discriminate |].
  destruct (ext_isValid ext); cbn [negb]; [| discriminate].
  destruct (fs_readFile _ _); [discriminate |]. intros [= _ <-]. reflexivity.
Qed.

Lemma writeFile_returns (filepath data : JsValue) (w w' : World FS)
      (r : CallToolResult) :
  writeFile h pv filepath data w = (w', inr r) -> isError r = false.
Proof.
  rewrite writeFile_steps. cbv zeta.
  destruct (isValid _); cbn [negb]; [| discriminate].
  destruct (validateFileExtension pv _) as [e|ext]; [discriminate |].
  destruct (ext_isValid ext); cbn [negb]; [| discriminate].
  destruct (Path.dirname _) as [e|dir]; [discriminate |].
  destruct (mkdir_recursive _ _) as [w2 [e|[]]]; [discriminate |].
  destruct (writeFile_utf8 _ _ _) as [w3 [e|[]]]; [discriminate |].
  intros [= _ <-]. reflexivity.
Qed.

Lemma listDirectory_returns (dirpath : JsValue) (w w' : World FS)
      (r : CallToolResult) :
  listDirectory h pv dirpath w = (w', inr r) -> isError r = false.
Proof.
  rewrite listDirectory_steps. cbv zeta.
  destruct (isValid _); cbn [negb]; [| discriminate].
  destruct (fs_readdir_withFileTypes _ _); [discriminate |].
  intros [= _ <-]. reflexivity.
Qed.

Lemma createSampleFile_returns (filename : JsValue) (w w' : World FS)
      (r : CallToolResult) :
  createSampleFile h pv filename w = (w', inr r) -> isError r = false.
Proof.
  assert (Hstring : forall f,
             createSampleFile h pv (JsString f) w = (w', inr r) ->
             isError r = false).
  { intros f. rewrite createSampleFile_steps. cbv zeta.
    destruct (isValid _); cbn [negb]; [| discriminate].
    destruct (writeFile_utf8 _ _ _) as [w2 [e|[]]]; [discriminate |].
    intros [= _ <-]. reflexivity. }
  destruct (js_truthy filename) eqn:Htruthy.
  - destruct filename as [| f |t shown];
      [discriminate | apply Hstring |].
    simpl in Htruthy. subst t. intros Hrun. inversion Hrun.
  - rewrite (createSampleFile_default h pv filename Htruthy). apply Hstring.
Qed.

(** What the [switch] can end in: a result that is not an error, the
    unknown-tool error for a name outside the six, or, for one of the six,
    an error that one of the four [catch] blocks threw on. *)
Lemma dispatch_outcome (toolName : string) (args : gmap string JsValue)
      (w w' : World FS) (o : Throws CallToolResult) :
  dispatch h pv toolName args w = (w', o) ->
  match o with
  | inr r => isError r = false
  | inl e =>
      (~ In toolName TOOLS /\ e = new_Error ("Unknown tool: " +:+ toolName)) \/
      (In toolName TOOLS /\
       exists prefix caught, In prefix toolPrefixes /\ e = rethrown prefix caught)
  end.
Proof.
  unfold dispatch.
  destruct (String.eqb_spec toolName "read_file") as [-> | N1].
  { destruct o as [e|r]; [| apply readFile_returns].
    intros Hrun. apply try_catch_throws in Hrun as [caught ->].
    right. split; [simpl; auto |]. eexists _, caught.
    split; [| reflexivity]. simpl; auto. }
  destruct (String.eqb_spec toolName "write_file") as [-> | N2].
  { destruct o as [e|r]; [| apply writeFile_returns].
    intros Hrun. apply try_catch_throws in Hrun as [caught ->].
    right. split; [simpl; auto |]. eexists _, caught.
    split; [| reflexivity]. simpl; auto. }
  destruct (String.eqb_spec toolName "list_directory") as [-> | N3].
  { destruct o as [e|r]; [| apply listDirectory_returns].
    intros Hrun. apply try_catch_throws in Hrun as [caught ->].
    right. split; [simpl; auto |]. eexists _, caught.
    split; [| reflexivity]. simpl; auto. }
  destruct (String.eqb_spec toolName "get_system_info") as [-> | N4].
  { intros [= _ <-]. reflexivity. }
  destruct (String.eqb_spec toolName "create_sample_file") as [-> | N5].
  { destruct o as [e|r]; [| apply createSampleFile_returns].
    intros Hrun. apply try_catch_throws in Hrun as [caught ->].
    right. split; [simpl; tauto |]. eexists _, caught.
    split; [| reflexivity]. simpl; tauto. }
  destruct (String.eqb_spec toolName "get_allowed_paths") as [-> | N6].
  { intros [= _ <-]. reflexivity. }
  intros [= _ <-]. left. split; [| reflexivity].
  simpl. intros Hin.
  repeat (destruct Hin as [Hin | Hin]; [congruence |]). exact Hin.
Qed.

End Outcomes.

(** X17.  The handler flags a result as an error in exactly two cases: the
    request carries no arguments, or the operation threw.  A tool that
    returns never flags its own result; and an exception of the operation
    always ends in a flagged result with the exception's message. *)
Theorem callTool_isError_iff {FS : Type} `{FileSystem FS}
        (h : Host) (pv : PathValidator) (params : CallToolParams)
        (w : World FS) :
  exists w' result,
    callTool h pv params w = (w', inr result) /\
    (isError result = true <->
     arguments params = None \/
     exists args w1 e,
       arguments params = Some args /\
       dispatch h pv (name params) args (after w [received params]) = (w1, inl e) /\
       result = errorResult e).
Proof.
  destruct (arguments params) as [args|] eqn:Hargs.
  - rewrite (callTool_dispatch h pv params args w Hargs).
    destruct (dispatch h pv (name params) args (after w [received params]))
      as [w1 [e|r]] eqn:Hd.
    + eexists _, _. split; [reflexivity |]. split; [| reflexivity].
      intros _. right. exists args, w1, e.
      split; [reflexivity |]. split; [exact Hd | reflexivity].
    + eexists _, _. split; [reflexivity |].
      pose proof (dispatch_outcome h pv _ _ _ _ _ Hd) as Hok. simpl in Hok.
      rewrite Hok. split; [discriminate |].
      intros [Hnone | (args' & w1' & e & Ha & Hthrown & _)];
        [discriminate |].
      injection Ha as <-. rewrite Hd in Hthrown. discriminate.
  - rewrite (callTool_no_arguments h pv params w Hargs).
    eexists _, _. split; [reflexivity |]. split; [| reflexivity].
    intros _. left. reflexivity.
Qed.

Lemma unknown_tool_message_differs (toolName prefix : string) (caught : Exn) :
  In prefix toolPrefixes ->
  new_Error ("Unknown tool: " +:+ toolName) <> rethrown prefix caught.
Proof.
  intros Hin Heq. apply (f_equal (fun e => firstChar (exn_message e))) in Heq.
  simpl in Hin.
  destruct Hin as [<- | [<- | [<- | [<- | []]]]]; vm_compute in Heq;
    discriminate Heq.
Qed.

(** X18.  The catalogue that [ListTools] announces and the [switch] of
    [CallTool] agree: the names announced are the six the [switch] knows,
    each once, and a call with arguments is answered with the unknown-tool
    error exactly when its name is not announced. *)
Theorem catalogue_matches_dispatch {FS : Type} `{FileSystem FS}
        (h : Host) (pv : PathValidator) (toolName : string)
        (args : gmap string JsValue) (w : World FS) :
  (forall w0 : World FS,
      listTools w0
      = (after w0 [ConsoleError "ListTools request received"],
         inr TOOLS_catalogue)) /\
  map tool_name TOOLS_catalogue = TOOLS /\
  NoDup (map tool_name TOOLS_catalogue) /\
  ((exists w',
       callTool h pv {| name := toolName; arguments := Some args |} w
       = (w', inr (textResult ("Error: Unknown tool: " +:+ toolName) true)))
   <-> ~ In toolName (map tool_name TOOLS_catalogue)).
Proof.
  split; [reflexivity |]. split; [reflexivity |]. split.
  { apply (bool_decide_unpack _). vm_compute. exact I. }
  change (map tool_name TOOLS_catalogue) with TOOLS.
  rewrite (callTool_dispatch h pv {| name := toolName; arguments := Some args |}
             args w eq_refl). cbn [name].
  set (w0 := after w _). split.
  - intros [w' Hcall] Hin.
    destruct (dispatch h pv toolName args w0) as [w1 [e|r]] eqn:Hd.
    + pose proof (dispatch_outcome h pv _ _ _ _ _ Hd) as Hout. simpl in Hout.
      destruct Hout as [[Hnot _] | (_ & prefix & caught & Hpre & ->)];
        [exact (Hnot Hin) |].
      injection Hcall as _ Htext.
      apply (unknown_tool_message_differs toolName prefix caught Hpre).
      unfold rethrown, new_Error in *. f_equal.
      cbn [exn_message] in Htext.
      symmetry. exact Htext.
    + pose proof (dispatch_outcome h pv _ _ _ _ _ Hd) as Hout. simpl in Hout.
      injection Hcall as _ ->. discriminate Hout.
  - intros Hnot. rewrite (dispatch_unknown h pv toolName args Hnot).
    eexists. reflexivity.
Qed.

(** ** Spellings of one path *)

(** X19.  [validatePath] decides on the resolved path alone: two inputs
    that resolve to the same path get the same result, message included;
    and on a host whose working directory is absolute, validating the
    normalized path of any result, allowed or denied, gives that same
    result again. *)
Theorem validatePath_spelling (h : Host) (pv : PathValidator) (p q : string) :
  (resolved h p = resolved h q ->
   validatePath h pv (JsString p) = validatePath h pv (JsString q)) /\
  (Path.isAbsolute (cwd h) = true ->
   validatePath h pv (normalizedPath (validatePath h pv (JsString p)))
   = validatePath h pv (JsString p)).
Proof.
  split.
  - intros Hsame. rewrite !validatePath_string, Hsame. reflexivity.
  - intros Hcwd. rewrite validatePath_normalizedPath, !validatePath_string.
    rewrite (resolve_idempotent h p (or_intror Hcwd)). reflexivity.
Qed.

Example validatePath_spelling_example :
  validatePath Example.host Example.sandbox (JsString "../.secret/./k")
  = validatePath Example.host Example.sandbox (JsString "/sandbox//.secret/x/../k")
  /\ validatePath Example.host Example.sandbox (JsString "../.secret/./k")
     = denied_blocked "/sandbox/.secret/k" "/sandbox/.secret".
Proof. split; reflexivity. Qed.

(** ** The policy the constructor installs *)

Lemma join_app (sep : string) (l1 l2 : list string) :
  l1 <> [] -> l2 <> [] ->
  Js.join sep (l1 ++ l2) = Js.join sep l1 +:+ sep +:+ Js.join sep l2.
Proof.
  intros H1 H2. induction l1 as [|x l1 IH]; [contradiction |].
  destruct l1 as [|y l1].
  - destruct l2 as [|z l2]; [contradiction | reflexivity].
  - change ((x :: y :: l1) ++ l2) with (x :: (y :: l1) ++ l2).
    change ((y :: l1) ++ l2) with (y :: l1 ++ l2) at 1.
    rewrite join_cons2.
    change (y :: l1 ++ l2) with ((y :: l1) ++ l2).
    rewrite IH by discriminate.
    rewrite join_cons2, !append_assoc. reflexivity.
Qed.

Lemma split_join_plain (x : string) (l : list string) :
  Forall noSeparator (x :: l) -> Js.split "/" (Js.join "/" (x :: l)) = x :: l.
Proof.
  revert x; induction l as [|y l IH]; intros x Hall.
  - inversion Hall; subst. apply split_single. assumption.
  - inversion Hall as [|? ? Hx Hrest]; subst.
    rewrite join_cons2, split_segment by assumption.
    rewrite (IH y Hrest). reflexivity.
Qed.

Lemma cleanSegment_relative (x : string) (rest : string) :
  cleanSegment x ->
  Js.truthy_string (x +:+ rest) = true /\ Path.isAbsolute (x +:+ rest) = false.
Proof.
  intros (Hne & _ & _ & Hsep). destruct x as [|c x]; [contradiction |].
  apply noSeparator_cons in Hsep as [Hc _]. rewrite append_cons. simpl.
  split; [reflexivity |]. apply Ascii.eqb_neq. exact Hc.
Qed.

Lemma join_cons_app (x : string) (l : list string) :
  exists rest, Js.join "/" (x :: l) = x +:+ rest.
Proof.
  destruct l as [|y l].
  - exists "". symmetry. apply append_nil_r.
  - exists ("/" +:+ Js.join "/" (y :: l)). reflexivity.
Qed.

Lemma resolveLoop_in_directory (cwd home rel : string) :
  Js.truthy_string rel = true -> Path.isAbsolute rel = false ->
  Path.isAbsolute home = true ->
  Path.resolveLoop cwd [JsString rel; JsString home] ""
  = inr (home +:+ "/" +:+ rel +:+ "/" +:+ "", true).
Proof.
  intros Ht Hrel Habs.
  assert (Hth : Js.truthy_string home = true)
    by (destruct home; [discriminate | reflexivity]).
  unfold Path.resolveLoop, mbind, Throws_mbind, Throws_bind, validateString.
  rewrite Ht, Hrel, Hth, Habs. reflexivity.
Qed.

(** A clean relative path resolved against a clean absolute directory: the
    segments of the one after the segments of the other. *)
Lemma resolve_in_directory (h : Host) (hs : list string) (r : string)
      (rs : list string) :
  Forall cleanSegment hs -> Forall cleanSegment (r :: rs) ->
  Path.resolve h [JsString ("/" +:+ Js.join "/" hs);
                  JsString (Js.join "/" (r :: rs))]
  = inr ("/" +:+ Js.join "/" (hs ++ r :: rs)).
Proof.
  intros Hhs Hrs. unfold Path.resolve. cbn [rev app].
  destruct (join_cons_app r rs) as [rest Hrest].
  inversion Hrs as [|? ? Hr Hrs']; subst.
  destruct (cleanSegment_relative r rest Hr) as [Htruthy Hrel].
  rewrite <- Hrest in Htruthy, Hrel.
  rewrite (resolveLoop_in_directory (cwd h) ("/" +:+ Js.join "/" hs) _
             Htruthy Hrel eq_refl).
  unfold mbind, Throws_mbind, Throws_bind. cbn [negb].
  f_equal. f_equal.
  unfold Path.normalizeString. f_equal. f_equal.
  change (("/" +:+ Js.join "/" hs) +:+ "/" +:+ Js.join "/" (r :: rs) +:+ "/" +:+ "")
    with (("/" +:+ Js.join "/" hs) +:+ "/" +:+ (Js.join "/" (r :: rs) +:+ "/")).
  rewrite split_app_separator.
  rewrite split_join by (apply cleanSegment_noSeparator; exact Hrs).
  change (Js.split "/" ("/" +:+ Js.join "/" hs))
    with ("" :: Js.split "/" (Js.join "/" hs)).
  destruct hs as [|x l].
  - change (Path.normalizeSegments false []
              (("" :: Js.split "/" (Js.join "/" [])) ++ (r :: rs) ++ [""]))
      with (Path.normalizeSegments false [] ((r :: rs) ++ [""])).
    rewrite (normalizeSegments_clean false (r :: rs) [""] []) by exact Hrs.
    rewrite app_nil_r.
    change (Path.normalizeSegments false (rev (r :: rs)) [""])
      with (rev (r :: rs)).
    rewrite rev_involutive. reflexivity.
  - rewrite split_join_plain by (apply cleanSegment_noSeparator; exact Hhs).
    change (Path.normalizeSegments false []
              (("" :: x :: l) ++ (r :: rs) ++ [""]))
      with (Path.normalizeSegments false [] ((x :: l) ++ (r :: rs) ++ [""])).
    rewrite app_assoc.
    rewrite (normalizeSegments_clean false ((x :: l) ++ r :: rs) [""] [])
      by (apply List.Forall_app; split; assumption).
    rewrite app_nil_r.
    change (Path.normalizeSegments false (rev ((x :: l) ++ r :: rs)) [""])
      with (rev ((x :: l) ++ r :: rs)).
    rewrite rev_involutive. reflexivity.
Qed.

Lemma startsWith_cancel (a x y : string) :
  Js.startsWith (a +:+ x) (a +:+ y) = Js.startsWith x y.
Proof.
  induction a as [|c a IH]; [reflexivity |].
  rewrite !append_cons. simpl. rewrite Ascii.eqb_refl. exact IH.
Qed.

Lemma length_append (a b : string) :
  String.length (a +:+ b) = String.length a + String.length b.
Proof.
  induction a as [|c a IH]; [reflexivity |].
  rewrite append_cons. simpl. rewrite IH. reflexivity.
Qed.

(** A text that is not a prefix of [a], and is no longer than [a], is not a
    prefix of any extension of [a]. *)
Lemma startsWith_short (a b x : string) :
  Js.startsWith a b = false -> String.length b <= String.length a ->
  Js.startsWith (a +:+ x) b = false.
Proof.
  revert a; induction b as [|c b IH]; intros a Hnot Hlen; [discriminate |].
  destruct a as [|d a]; [simpl in Hlen; lia |].
  rewrite append_cons. simpl in *.
  destruct (Ascii.eqb c d); [| reflexivity].
  apply IH; [exact Hnot | lia].
Qed.

Ltac clean_literal :=
  repeat split; try discriminate;
  let Hin := fresh "Hin" in
  intros Hin; simpl in Hin;
  repeat (destruct Hin as [Hin | Hin]; [discriminate |]); exact Hin.

Lemma areaSegments_clean : Forall cleanSegment areaSegments.
Proof. repeat constructor; clean_literal. Qed.

(** What the constructor builds on a host whose home directory is a
    normalized absolute path. *)
Lemma PathValidator_new_clean_home (h : Host) (hs : list string) :
  Forall cleanSegment hs ->
  homedir h = "/" +:+ Js.join "/" hs ->
  exists pv,
    PathValidator_new h = inr pv /\
    allowedPaths pv = ["/" +:+ Js.join "/" (hs ++ areaSegments)] /\
    blockedPaths pv =
    systemDirs ++ ["/" +:+ Js.join "/" (hs ++ [".ssh"]);
                   "/" +:+ Js.join "/" (hs ++ [".aws"]);
                   "/" +:+ Js.join "/" (hs ++ [".config"])].
Proof.
  intros Hhs Hhome. unfold PathValidator_new. rewrite Hhome.
  change "Documents/00_AI_Area"
    with (Js.join "/" ["Documents"; "00_AI_Area"]).
  change ".ssh" with (Js.join "/" [".ssh"]) at 1.
  change ".aws" with (Js.join "/" [".aws"]) at 1.
  change ".config" with (Js.join "/" [".config"]) at 1.
  rewrite !resolve_in_directory
    by (first [exact Hhs | exact areaSegments_clean
              | repeat constructor; clean_literal]).
  unfold mbind, mret, Throws_mbind, Throws_mret, Throws_bind.
  eexists. split; [reflexivity |]. split; reflexivity.
Qed.

Lemma resolved_clean (h : Host) (segs : list string) :
  Forall cleanSegment segs ->
  resolved h ("/" +:+ Js.join "/" segs) = "/" +:+ Js.join "/" segs.
Proof.
  intros Hclean. unfold resolved. rewrite (resolve_clean h segs Hclean).
  reflexivity.
Qed.

Lemma systemDirs_resolved (h : Host) :
  Forall (fun b => resolved h b = b) systemDirs.
Proof. repeat constructor. Qed.

(** A path below the area is not below a dot-directory of the home. *)
Lemma area_not_in_dot_directory (hs rest : list string) (d : string) :
  Js.startsWith ("/" +:+ Js.join "/" (hs ++ areaSegments ++ rest))
                ("/" +:+ Js.join "/" (hs ++ [String "." d])) = false.
Proof.
  assert (Hhead : exists tail,
             Js.join "/" (areaSegments ++ rest) = String "D" tail).
  { unfold areaSegments. cbn [app].
    destruct (join_cons_app "Documents" ("00_AI_Area" :: rest)) as [t ->].
    eexists. reflexivity. }
  destruct Hhead as [tail Htail].
  destruct hs as [|x l].
  - cbn [app]. change (areaSegments ++ rest) with (areaSegments ++ rest).
    rewrite (startsWith_cancel "/"). cbn [app] in Htail.
    change ("Documents" :: "00_AI_Area" :: rest) with (areaSegments ++ rest).
    rewrite Htail. reflexivity.
  - rewrite !(join_app "/" (x :: l)) by discriminate.
    rewrite <- !append_assoc.
    rewrite (startsWith_cancel (("/" +:+ Js.join "/" (x :: l)) +:+ "/")).
    rewrite Htail. reflexivity.
Qed.

Lemma area_length (hs : list string) :
  21 <= String.length ("/" +:+ Js.join "/" (hs ++ areaSegments)).
Proof.
  destruct hs as [|x l].
  - simpl. lia.
  - rewrite (join_app "/" (x :: l) areaSegments) by discriminate.
    rewrite !length_append. simpl. lia.
Qed.

Lemma below_area (hs rest : list string) :
  exists x,
    "/" +:+ Js.join "/" (hs ++ areaSegments ++ rest)
    = ("/" +:+ Js.join "/" (hs ++ areaSegments)) +:+ x.
Proof.
  destruct rest as [|r rest].
  - exists "". rewrite app_nil_r, append_nil_r. reflexivity.
  - exists ("/" +:+ Js.join "/" (r :: rest)).
    rewrite app_assoc, (join_app "/" (hs ++ areaSegments) (r :: rest)).
    + rewrite !append_assoc. reflexivity.
    + destruct hs; discriminate.
    + discriminate.
Qed.

(** X20.  On a host whose home directory is a normalized absolute path, the
    constructor allows one directory, [Documents/00_AI_Area] under the
    home, and, provided none of the nine blocked system directories is a
    prefix of that directory's path, [validatePath] allows the directory
    and every path below it, unchanged: the three dot-directories of the
    home that the constructor blocks never hide it. *)
Theorem constructed_policy_allows_area (h : Host) (hs rest : list string) :
  Forall cleanSegment hs -> Forall cleanSegment rest ->
  homedir h = "/" +:+ Js.join "/" hs ->
  let area := "/" +:+ Js.join "/" (hs ++ areaSegments) in
  Forall (fun b => Js.startsWith area b = false) systemDirs ->
  exists pv,
    PathValidator_new h = inr pv /\
    allowedPaths pv = [area] /\
    let p := "/" +:+ Js.join "/" (hs ++ areaSegments ++ rest) in
    validatePath h pv (JsString p) = allowed p.
Proof.
  intros Hhs Hrest Hhome area Hsystem.
  destruct (PathValidator_new_clean_home h hs Hhs Hhome)
    as (pv & Hnew & Hallowed & Hblocked).
  exists pv. split; [exact Hnew |]. split; [exact Hallowed |].
  intros p.
  assert (Hclean : Forall cleanSegment (hs ++ areaSegments ++ rest)).
  { apply List.Forall_app. split; [exact Hhs |].
    apply List.Forall_app. split; [exact areaSegments_clean | exact Hrest]. }
  destruct (below_area hs rest) as [x Hbelow]. fold p area in Hbelow.
  rewrite validatePath_string.
  unfold p at 1 2 3 4. rewrite (resolved_clean h _ Hclean). fold p.
  assert (Hfind : List.find (hitsBlocked h p) (blockedPaths pv) = None).
  { apply find_none_forallb. rewrite Hblocked, List.forallb_app.
    apply andb_true_iff. split.
    - apply forallb_forall. intros b Hb.
      pose proof (proj1 (List.Forall_forall _ _) Hsystem b Hb) as Hnot.
      pose proof (proj1 (List.Forall_forall _ _) (systemDirs_resolved h) b Hb)
        as Hres.
      assert (Hlen : String.length b <= 20).
      { clear Hnot Hres. revert b Hb. apply List.Forall_forall.
        repeat constructor; simpl; lia. }
      unfold hitsBlocked. rewrite Hres, Hbelow.
      rewrite (startsWith_short area b x Hnot); [reflexivity |].
      pose proof (area_length hs) as Harea. fold area in Harea. lia.
    - cbn [forallb]. unfold hitsBlocked.
      rewrite !resolved_clean
        by (apply List.Forall_app; split;
            [exact Hhs | repeat constructor; clean_literal]).
      unfold p. rewrite !area_not_in_dot_directory. reflexivity. }
  rewrite Hfind, Hallowed. cbn [existsb]. fold area.
  assert (Hin : Js.startsWith p area = true)
    by (rewrite Hbelow; apply startsWith_app).
  rewrite Hin. reflexivity.
Qed.

Lemma constructed_policy_allows_area_witness :
  exists pv,
    PathValidator_new Example.host = inr pv /\
    allowedPaths pv = ["/home/myself/Documents/00_AI_Area"] /\
    validatePath Example.host pv
                 (JsString "/home/myself/Documents/00_AI_Area/notes/a.txt")
    = allowed "/home/myself/Documents/00_AI_Area/notes/a.txt".
Proof.
  apply (constructed_policy_allows_area Example.host
           ["home"; "myself"] ["notes"; "a.txt"]).
  - repeat constructor; clean_literal.
  - repeat constructor; clean_literal.
  - reflexivity.
  - repeat constructor.
Defined.

(** The proviso matters: on a host whose home is [/etcetera/u] the blocked
    entry [/etc] is a prefix of every path of the area. *)
Example constructed_policy_hidden_area :
  let h := mkHost "/" "/etcetera/u" "/tmp" "linux" "x64" "6.1.0" "box"
                  0 0 0 1 "v20.11.0" "" in
  exists pv,
    PathValidator_new h = inr pv /\
    validatePath h pv (JsString "/etcetera/u/Documents/00_AI_Area/a.txt")
    = denied_blocked "/etcetera/u/Documents/00_AI_Area/a.txt" "/etc".
Proof. eexists. split; reflexivity. Qed.

(** ** What [create_sample_file] can write *)


Example createSampleFile_missing_directory :
  exists w' e,
    createSampleFile Example.host Example.sandbox
                     (JsString "reports/today.txt") Example.world = (w', inl e) /\
    files w' = files Example.world /\
    fsCalls (trace w')
    = [FsWriteFile (JsString "/sandbox/work/reports/today.txt")
                   (JsString (sampleContent Example.host))].
Proof. eexists _, _. repeat split. Qed.
